(** * Announcement endpoints of the High School Management System API

    A shallow embedding of [src/backend/routers/announcements.py]:
    the request handlers are functions in a state-and-exception monad
    over the two MongoDB collections the module imports, and the
    properties of the written description are proved about them.

    Conventions.
    - A JSON/BSON value reachable through this API is [null] or a string,
      so a Python [dict] of such values is a [gmap string Value].
    - A stored document is its [_id] (an ObjectId) together with the
      dict of its remaining keys; a collection is the list of its
      documents in natural (insertion) order.
    - Library behaviour the module relies on but does not define
      ([datetime.fromisoformat], [bson.ObjectId], [str] of an ObjectId)
      is a parameter, bundled in [Library]; [Sample] instantiates it.
    - [datetime.now(timezone.utc).isoformat()] and the ObjectId the
      driver generates for [insert_one] are inputs of the handlers.
    - [logger.info] writes to neither collection and is left out. *)

From Stdlib Require Import ZArith String Ascii List Lia.
From Stdlib Require Import Sorting.Sorted Sorting.Permutation.
From Stdlib Require Import Structures.OrderedTypeEx.
From stdpp Require Import gmap strings list fin_maps.

Local Open Scope string_scope.
Local Open Scope list_scope.
Local Open Scope Z_scope.

(** ** Values and documents *)

Inductive Value : Type :=
| VNull
| VStr (s : string).

Global Instance Value_eq_dec : EqDecision Value.
Proof. solve_decision. Defined.

(** A bson ObjectId, identified with its [binary] attribute. *)
Inductive oid : Type :=
| Oid (binary : string).

Global Instance oid_eq_dec : EqDecision oid.
Proof. solve_decision. Defined.

Record Document : Type := mkDocument {
  _id : oid;
  fields : gmap string Value
}.

(** [Optional[str]] as a document value: [None] is stored as null. *)
Definition of_optional (o : option string) : Value :=
  match o with
  | Some s => VStr s
  | None => VNull
  end.

(** Python truthiness of [doc.get(key)]: a missing key and null give
    [None]; a string is true unless it is empty. *)
Definition truthy (v : option Value) : bool :=
  match v with
  | Some (VStr s) => negb (String.eqb s EmptyString)
  | _ => false
  end.

(** [v > now] for a value and a string, by code units; on a value that is
    not a string the query operator [$gt] matches nothing. *)
Definition gt_string (v : option Value) (now : string) : bool :=
  match v with
  | Some (VStr s) => String.ltb now s
  | _ => false
  end.

(** ** [datetime] values and their comparison *)

Record datetime : Type := mkDatetime {
  year : Z;
  month : Z;
  day : Z;
  hour : Z;
  minute : Z;
  second : Z;
  microsecond : Z;
  (** [utcoffset()] in microseconds; [None] for a naive datetime *)
  utcoffset : option Z
}.

Definition _is_leap (y : Z) : bool :=
  (y mod 4 =? 0) && (negb (y mod 100 =? 0) || (y mod 400 =? 0)).

Definition _days_before_year (y : Z) : Z :=
  let y := y - 1 in y * 365 + y / 4 - y / 100 + y / 400.

Definition _DAYS_BEFORE_MONTH : list Z :=
  [-1; 0; 31; 59; 90; 120; 151; 181; 212; 243; 273; 304; 334].

Definition _days_before_month (y m : Z) : Z :=
  nth (Z.to_nat m) _DAYS_BEFORE_MONTH 0
  + (if (2 <? m) && _is_leap y then 1 else 0).

Definition _ymd2ord (y m d : Z) : Z :=
  _days_before_year y + _days_before_month y m + d.

(** Microseconds from the proleptic origin, ignoring the offset. *)
Definition base_micros (d : datetime) : Z :=
  ((_ymd2ord (year d) (month d) (day d) * 86400
    + hour d * 3600 + minute d * 60 + second d) * 1000000)
  + microsecond d.

Fixpoint lex_compare (l1 l2 : list Z) : comparison :=
  match l1, l2 with
  | [], [] => Eq
  | [], _ :: _ => Lt
  | _ :: _, [] => Gt
  | x :: l1', y :: l2' =>
      match Z.compare x y with
      | Eq => lex_compare l1' l2'
      | c => c
      end
  end.

Definition base_tuple (d : datetime) : list Z :=
  [year d; month d; day d; hour d; minute d; second d; microsecond d].

(** [datetime._cmp]: equal offsets (both naive included) compare the
    field tuples; one naive and one aware operand is a [TypeError]
    ([None]); otherwise the sign of [self - other], which takes the
    offsets into account. *)
Definition _cmp (self other : datetime) : option comparison :=
  match utcoffset self, utcoffset other with
  | None, None => Some (lex_compare (base_tuple self) (base_tuple other))
  | Some myoff, Some otoff =>
      if myoff =? otoff
      then Some (lex_compare (base_tuple self) (base_tuple other))
      else Some (Z.compare (base_micros self - myoff)
                           (base_micros other - otoff))
  | _, _ => None
  end.

(** [self >= other] *)
Definition dt_ge (self other : datetime) : option bool :=
  match _cmp self other with
  | Some Lt => Some false
  | Some _ => Some true
  | None => None
  end.

(** ** Library parameters *)

Record Library : Type := mkLibrary {
  (** [datetime.fromisoformat]; [None] stands for [ValueError] *)
  fromisoformat : string -> option datetime;
  (** [bson.ObjectId(s)] on a string; [None] stands for [InvalidId] *)
  ObjectId : string -> option oid;
  (** [str(oid)] *)
  str : oid -> string
}.

(** ** The request monad: state of both collections, outcome of a call *)

Record State : Type := mkState {
  teachers_collection : gmap string (gmap string Value);
  announcements_collection : list Document
}.

Inductive Outcome (A : Type) : Type :=
| Return (a : A)
| HTTPException (status_code : Z) (detail : string)
| Uncaught (exn : string).

Arguments Return {A} a.
Arguments HTTPException {A} status_code detail.
Arguments Uncaught {A} exn.

Definition M (A : Type) : Type := State -> Outcome A * State.

Definition ret {A} (a : A) : M A := fun st => (Return a, st).

Definition bind {A B} (m : M A) (k : A -> M B) : M B :=
  fun st =>
    match m st with
    | (Return a, st') => k a st'
    | (HTTPException c d, st') => (HTTPException c d, st')
    | (Uncaught e, st') => (Uncaught e, st')
    end.

Definition raise {A} (status_code : Z) (detail : string) : M A :=
  fun st => (HTTPException status_code detail, st).

Definition uncaught {A} (exn : string) : M A :=
  fun st => (Uncaught exn, st).

Declare Scope req_scope.
Delimit Scope req_scope with req.
Notation "x <- m ;; k" := (bind m (fun x => k))
  (at level 100, m at next level, right associativity) : req_scope.
Notation "m ;; k" := (bind m (fun _ => k))
  (at level 100, right associativity) : req_scope.
Local Open Scope req_scope.

(** ** Collection operations (the pymongo calls the module makes) *)

(** [teachers_collection.find_one({"_id": username})] *)
Definition find_one_teacher (username : string)
  : M (option (gmap string Value)) :=
  fun st => (Return (teachers_collection st !! username), st).

(** First document whose [_id] is [o]. *)
Fixpoint find_by_id (o : oid) (c : list Document) : option Document :=
  match c with
  | [] => None
  | d :: c' => if decide (_id d = o) then Some d else find_by_id o c'
  end.

(** [announcements_collection.find_one({"_id": obj_id})] *)
Definition find_one (o : oid) : M (option Document) :=
  fun st => (Return (find_by_id o (announcements_collection st)), st).

Definition set_announcements (c : list Document) (st : State) : State :=
  {| teachers_collection := teachers_collection st;
     announcements_collection := c |}.

(** [announcements_collection.insert_one(doc)] with the generated key
    [new_id]; gives [result.inserted_id]. *)
Definition insert_one (new_id : oid) (doc : gmap string Value) : M oid :=
  fun st =>
    (Return new_id,
     set_announcements
       (announcements_collection st ++ [mkDocument new_id doc]) st).

(** [{"$set": data}] on one document: the keys of [data] are overwritten,
    every other key and the [_id] stay. *)
Definition apply_set (data : gmap string Value) (d : Document) : Document :=
  mkDocument (_id d) (data ∪ fields d).

Fixpoint update_first (o : oid) (data : gmap string Value)
  (c : list Document) : list Document :=
  match c with
  | [] => []
  | d :: c' =>
      if decide (_id d = o) then apply_set data d :: c'
      else d :: update_first o data c'
  end.

(** [announcements_collection.update_one({"_id": obj_id}, {"$set": data})] *)
Definition update_one (o : oid) (data : gmap string Value) : M unit :=
  fun st =>
    (Return tt,
     set_announcements (update_first o data (announcements_collection st)) st).

(** Removes the first document whose [_id] is [o]; the first component is
    [deleted_count]. *)
Fixpoint delete_first (o : oid) (c : list Document) : Z * list Document :=
  match c with
  | [] => (0, [])
  | d :: c' =>
      if decide (_id d = o) then (1, c')
      else let '(n, r) := delete_first o c' in (n, d :: r)
  end.

(** [announcements_collection.delete_one({"_id": obj_id})], giving
    [result.deleted_count]. *)
Definition delete_one (o : oid) : M Z :=
  fun st =>
    let '(n, c) := delete_first o (announcements_collection st) in
    (Return n, set_announcements c st).

(** Sort key of [.sort("created_at", -1)]: a missing field sorts as null,
    and null sorts below every string. *)
Definition created_at_key (d : Document) : option string :=
  match fields d !! "created_at" with
  | Some (VStr s) => Some s
  | _ => None
  end.

Definition key_leb (a b : option string) : bool :=
  match a, b with
  | None, _ => true
  | Some _, None => false
  | Some x, Some y => String.leb x y
  end.

(** Insertion into a list sorted newest first; a document goes in front
    of the stored ones with the same key. *)
Fixpoint insert_desc (d : Document) (l : list Document) : list Document :=
  match l with
  | [] => [d]
  | x :: l' =>
      if key_leb (created_at_key x) (created_at_key d)
      then d :: x :: l'
      else x :: insert_desc d l'
  end.

Fixpoint sort_desc (l : list Document) : list Document :=
  match l with
  | [] => []
  | d :: l' => insert_desc d (sort_desc l')
  end.

(** [announcements_collection.find().sort("created_at", -1)] *)
Definition find_all_sorted : M (list Document) :=
  fun st => (Return (sort_desc (announcements_collection st)), st).

(** [find({key: {"$gt": v}}).sort("created_at", -1)] *)
Definition find_gt_sorted (key v : string) : M (list Document) :=
  fun st =>
    (Return (sort_desc
               (List.filter (fun d => gt_string (fields d !! key) v)
                  (announcements_collection st))), st).

(** ** The module *)

(** [class AnnouncementCreate(BaseModel)], after validation by the
    framework. *)
Record AnnouncementCreate : Type := mkAnnouncementCreate {
  message : string;
  start_date : option string;
  expiration_date : string
}.

Section Handlers.

Variable L : Library.

Definition _serialize_announcement (doc : Document) : gmap string Value :=
  <["id" := VStr (str L (_id doc))]> (fields doc).

(** A document that [find_one] returns carries at least its [_id], so it
    is a non-empty dict and [not teacher] holds only for [None]. *)
Definition _validate_teacher (username : string) : M unit :=
  teacher <- find_one_teacher username ;;
  match teacher with
  | None => raise 401 "Unauthorized"
  | Some _ => ret tt
  end.

Definition _validate_dates (start_date : option string)
  (expiration_date : string) : M unit :=
  match fromisoformat L expiration_date with
  | None => raise 400 "Invalid expiration date format"
  | Some exp =>
      match start_date with
      | Some s =>
          if String.eqb s EmptyString then ret tt
          else
            match fromisoformat L s with
            | None => raise 400 "Invalid start date format"
            | Some start =>
                match dt_ge start exp with
                | None => uncaught "TypeError"
                | Some true =>
                    raise 400 "Start date must be before expiration date"
                | Some false => ret tt
                end
            end
      | None => ret tt
      end
  end.

Definition list_announcements : M (list (gmap string Value)) :=
  docs <- find_all_sorted ;;
  ret (map _serialize_announcement docs).

(** The loop body of [list_active_announcements]: [continue] on a start
    date that is set and later than [now]. *)
Definition started (now : string) (doc : Document) : bool :=
  let start := fields doc !! "start_date" in
  negb (truthy start && gt_string start now).

Definition list_active_announcements (now : string)
  : M (list (gmap string Value)) :=
  docs <- find_gt_sorted "expiration_date" now ;;
  ret (map _serialize_announcement (List.filter (started now) docs)).

Definition new_doc (body : AnnouncementCreate) (teacher_username now : string)
  : gmap string Value :=
  <["message" := VStr (message body)]>
  (<["start_date" := of_optional (start_date body)]>
  (<["expiration_date" := VStr (expiration_date body)]>
  (<["created_by" := VStr teacher_username]>
  (<["created_at" := VStr now]> ∅)))).

Definition create_announcement (now : string) (new_id : oid)
  (body : AnnouncementCreate) (teacher_username : string)
  : M (gmap string Value) :=
  _validate_teacher teacher_username ;;
  _validate_dates (start_date body) (expiration_date body) ;;
  let doc := new_doc body teacher_username now in
  inserted_id <- insert_one new_id doc ;;
  ret (<["id" := VStr (str L inserted_id)]> doc).

Definition update_data (body : AnnouncementCreate) : gmap string Value :=
  <["message" := VStr (message body)]>
  (<["start_date" := of_optional (start_date body)]>
  (<["expiration_date" := VStr (expiration_date body)]> ∅)).

Definition ack (text : string) : gmap string Value :=
  {["message" := VStr text]}.

Definition update_announcement (announcement_id : string)
  (body : AnnouncementCreate) (teacher_username : string)
  : M (gmap string Value) :=
  _validate_teacher teacher_username ;;
  _validate_dates (start_date body) (expiration_date body) ;;
  match ObjectId L announcement_id with
  | None => raise 400 "Invalid announcement ID"
  | Some obj_id =>
      existing <- find_one obj_id ;;
      match existing with
      | None => raise 404 "Announcement not found"
      | Some _ =>
          update_one obj_id (update_data body) ;;
          ret (ack "Announcement updated successfully")
      end
  end.

Definition delete_announcement (announcement_id : string)
  (teacher_username : string) : M (gmap string Value) :=
  _validate_teacher teacher_username ;;
  match ObjectId L announcement_id with
  | None => raise 400 "Invalid announcement ID"
  | Some obj_id =>
      deleted_count <- delete_one obj_id ;;
      if deleted_count =? 0 then raise 404 "Announcement not found"
      else ret (ack "Announcement deleted successfully")
  end.

End Handlers.

(** ** A concrete library and store, for evaluating the handlers

    [Sample.lib] accepts the timestamps [YYYY-MM-DDTHH:MM:SS] with an
    optional [+HH:MM] or [-HH:MM] suffix and the identifiers made of 24
    hexadecimal digits; on these it computes what CPython and bson do. *)

Module Sample.

Definition digit (c : ascii) : option Z :=
  let n := Z.of_N (N_of_ascii c) in
  if (48 <=? n) && (n <=? 57) then Some (n - 48) else None.

Fixpoint number_from (acc : Z) (cs : list ascii) : option Z :=
  match cs with
  | [] => Some acc
  | c :: cs' =>
      match digit c with
      | Some n => number_from (acc * 10 + n) cs'
      | None => None
      end
  end.

(** The [n] digits starting at position [i]. *)
Definition number_at (i n : nat) (cs : list ascii) : option Z :=
  let part := take n (drop i cs) in
  if Nat.eqb (length part) n then number_from 0 part else None.

Definition char_at (i : nat) (c : ascii) (cs : list ascii) : bool :=
  match cs !! i with
  | Some c' => if decide (c' = c) then true else false
  | None => false
  end.

Definition _days_in_month (y m : Z) : Z :=
  if (m =? 2) && _is_leap y then 29
  else nth (Z.to_nat m) [0; 31; 28; 31; 30; 31; 30; 31; 31; 30; 31; 30; 31] 0.

Definition in_range (lo x hi : Z) : bool := (lo <=? x) && (x <=? hi).

Definition parse_offset (cs : list ascii) : option (option Z) :=
  match cs with
  | [] => Some None
  | _ =>
      if Nat.eqb (length cs) 6 && char_at 3 ":" cs then
        match number_at 1 2 cs, number_at 4 2 cs with
        | Some oh, Some om =>
            if in_range 0 oh 23 && in_range 0 om 59 then
              let us := (oh * 3600 + om * 60) * 1000000 in
              if char_at 0 "+" cs then Some (Some us)
              else if char_at 0 "-" cs then Some (Some (- us))
              else None
            else None
        | _, _ => None
        end
      else None
  end.

Definition parse_datetime (s : string) : option datetime :=
  let cs := list_ascii_of_string s in
  if char_at 4 "-" cs && char_at 7 "-" cs && char_at 10 "T" cs
     && char_at 13 ":" cs && char_at 16 ":" cs then
    match number_at 0 4 cs, number_at 5 2 cs, number_at 8 2 cs,
          number_at 11 2 cs, number_at 14 2 cs, number_at 17 2 cs,
          parse_offset (drop 19 cs) with
    | Some y, Some mo, Some d, Some h, Some mi, Some se, Some off =>
        if in_range 1 y 9999 && in_range 1 mo 12
           && in_range 1 d (_days_in_month y mo)
           && in_range 0 h 23 && in_range 0 mi 59 && in_range 0 se 59
        then Some (mkDatetime y mo d h mi se 0 off)
        else None
    | _, _, _, _, _, _, _ => None
    end
  else None.

Definition hex_digit (c : ascii) : option N :=
  let n := N_of_ascii c in
  if (48 <=? n)%N && (n <=? 57)%N then Some (n - 48)%N
  else if (97 <=? n)%N && (n <=? 102)%N then Some (n - 87)%N
  else if (65 <=? n)%N && (n <=? 70)%N then Some (n - 55)%N
  else None.

(** [bytes.fromhex] on a string of hexadecimal digit pairs. *)
Fixpoint fromhex (cs : list ascii) : option string :=
  match cs with
  | [] => Some EmptyString
  | hi :: lo :: cs' =>
      match hex_digit hi, hex_digit lo, fromhex cs' with
      | Some h, Some l, Some r => Some (String (ascii_of_N (h * 16 + l)) r)
      | _, _, _ => None
      end
  | _ => None
  end.

Definition parse_oid (s : string) : option oid :=
  let cs := list_ascii_of_string s in
  if Nat.eqb (length cs) 24 then
    match fromhex cs with
    | Some b => Some (Oid b)
    | None => None
    end
  else None.

Definition hex_char (n : N) : ascii :=
  if (n <? 10)%N then ascii_of_N (n + 48) else ascii_of_N (n + 87).

(** [binascii.hexlify] *)
Fixpoint hexlify (b : string) : string :=
  match b with
  | EmptyString => EmptyString
  | String c b' =>
      let n := N_of_ascii c in
      String (hex_char (n / 16)) (String (hex_char (n mod 16)) (hexlify b'))
  end.

Definition oid_str (o : oid) : string :=
  match o with Oid b => hexlify b end.

Definition lib : Library :=
  {| fromisoformat := parse_datetime;
     ObjectId := parse_oid;
     str := oid_str |}.

Definition oid_of (s : string) : oid :=
  match parse_oid s with
  | Some o => o
  | None => Oid EmptyString
  end.

Definition id1 : oid := oid_of "650000000000000000000001".
Definition id2 : oid := oid_of "650000000000000000000002".
Definition id3 : oid := oid_of "650000000000000000000003".
Definition id9 : oid := oid_of "650000000000000000000009".

Definition announcement (m : string) (s : Value) (e cb ca : string)
  : gmap string Value :=
  <["message" := VStr m]>
  (<["start_date" := s]>
  (<["expiration_date" := VStr e]>
  (<["created_by" := VStr cb]>
  (<["created_at" := VStr ca]> ∅)))).

(** "Exam": open until 2999, no start; "Fair": starts in 2990;
    "Old": expired in 2001. *)
Definition exam : Document :=
  mkDocument id1
    (announcement "Exam tomorrow" VNull "2999-01-01T00:00:00" "t1"
       "2024-01-01T08:00:00+00:00").
Definition fair : Document :=
  mkDocument id2
    (announcement "Science fair" (VStr "2990-01-01T00:00:00")
       "2999-01-01T00:00:00" "t1" "2024-02-01T08:00:00+00:00").
Definition old : Document :=
  mkDocument id3
    (announcement "Old news" (VStr EmptyString) "2001-01-01T00:00:00" "t1"
       "2024-03-01T08:00:00+00:00").

Definition st0 : State :=
  {| teachers_collection := {["t1" := {["display_name" := VStr "Ms. T"]}]};
     announcements_collection := [exam; fair; old] |}.

Definition now0 : string := "2025-06-01T12:00:00+00:00".

Definition equal_ts : string := "2999-01-01T00:00:00".
Definition fair_key : string := "650000000000000000000002".
Definition free_key : string := "650000000000000000000009".

Definition body_ok : AnnouncementCreate :=
  mkAnnouncementCreate "Exam tomorrow" None "2999-01-01T00:00:00".
Definition body_equal : AnnouncementCreate :=
  mkAnnouncementCreate "Same instant" (Some "2999-01-01T00:00:00")
    "2999-01-01T00:00:00".
Definition body_late : AnnouncementCreate :=
  mkAnnouncementCreate "Late start" (Some "2999-02-01T00:00:00")
    "2999-01-01T00:00:00".
Definition body_empty_start : AnnouncementCreate :=
  mkAnnouncementCreate "No start" (Some EmptyString) "2999-01-01T00:00:00".
Definition body_bad_dates : AnnouncementCreate :=
  mkAnnouncementCreate "Bad" (Some "soon") "later".

End Sample.

(** * Vocabulary of the written description *)

(** [d1] may stand before [d2] in a list sorted by [created_at]
    descending. *)
Definition newest_first (d1 d2 : Document) : Prop :=
  key_leb (created_at_key d2) (created_at_key d1) = true.

(** The written description of an active record: its [expiration_date]
    is a string greater than [now], and its [start_date], when it is a
    string, is not greater than [now]. *)
Definition is_active (now : string) (d : Document) : Prop :=
  (∃ e, fields d !! "expiration_date" = Some (VStr e)
        ∧ String.ltb now e = true)
  ∧ (∀ s, fields d !! "start_date" = Some (VStr s)
          → String.ltb now s = false).

(** What [list_active_announcements] keeps of the collection. *)
Definition kept (now : string) (d : Document) : bool :=
  gt_string (fields d !! "expiration_date") now && started now d.

Global Instance is_active_dec now d : Decision (is_active now d).
Proof.
  unfold is_active.
  destruct (fields d !! "expiration_date") as [[|e]|].
  - right. by intros [(? & [=] & _) _].
  - destruct (String.ltb now e) eqn:He.
    + destruct (fields d !! "start_date") as [[|s]|].
      * left. split; [by eauto | by intros ? [=]].
      * destruct (String.ltb now s) eqn:Hs.
        -- right. intros [_ H]. by rewrite (H s eq_refl) in Hs.
        -- left. split; [by eauto | by intros ? [= <-]].
      * left. split; [by eauto | by intros ? [=]].
    + right. intros [(? & [= <-] & ?) _]. congruence.
  - right. by intros [(? & [=] & _) _].
Defined.

(** The HTTP status of a failed request. *)
Definition status {A} (o : Outcome A) : option Z :=
  match o with
  | HTTPException c _ => Some c
  | _ => None
  end.

(** The written description of valid dates: the expiration parses and
    the start is absent, empty, or parses to an earlier instant. *)
Definition valid_dates (L : Library) (start_date : option string)
  (expiration_date : string) : Prop :=
  ∃ exp, fromisoformat L expiration_date = Some exp
    ∧ match start_date with
      | None => True
      | Some s =>
          s = EmptyString
          ∨ ∃ start, fromisoformat L s = Some start
                     ∧ dt_ge start exp = Some false
      end.

(** No stored record has the key [o]. *)
Definition absent (o : oid) (c : list Document) : Prop :=
  ∀ d, d ∈ c → _id d ≠ o.

Ltac unfold_ops :=
  unfold create_announcement, update_announcement, delete_announcement,
    list_announcements, _validate_teacher, find_one_teacher, find_one,
    insert_one, update_one, delete_one, bind, raise, ret, uncaught in *.

Ltac listed := repeat first [by constructor 1 | constructor 2].

(** The rule on late starts as the description words it: any create or
    update whose start and expiration both parse, with the start not
    before the expiration, fails with status 400. *)
Definition late_start_always_400 : Prop :=
  ∀ (L : Library) (now : string) (new_id : oid) (announcement_id : string)
    (body : AnnouncementCreate) (username : string) (st : State)
    (s : string) (start exp : datetime),
    start_date body = Some s → s ≠ EmptyString →
    fromisoformat L s = Some start →
    fromisoformat L (expiration_date body) = Some exp →
    dt_ge start exp = Some true →
    status (fst (create_announcement L now new_id body username st))
      = Some 400
    ∧ status (fst (update_announcement L announcement_id body username st))
      = Some 400.

(** The rule on empty start dates as the description words it, for its
    first part: any create or update by a known teacher with an empty
    start_date and a parseable expiration_date succeeds. *)
Definition empty_start_always_succeeds : Prop :=
  ∀ (L : Library) (now : string) (new_id : oid) (announcement_id : string)
    (body : AnnouncementCreate) (username : string) (st : State),
    is_Some (teachers_collection st !! username) →
    start_date body = Some EmptyString →
    is_Some (fromisoformat L (expiration_date body)) →
    (∃ r st', create_announcement L now new_id body username st
              = (Return r, st'))
    ∧ (∃ r st', update_announcement L announcement_id body username st
                = (Return r, st')).

(** * Properties *)

(** ** The order on strings *)

Lemma ltb_empty_r (s : string) : String.ltb s EmptyString = false.
Proof. unfold String.ltb. by destruct s. Qed.

Lemma leb_refl (s : string) : String.leb s s = true.
Proof. destruct (String.leb_total s s); done. Qed.

Lemma leb_not_lts (x y : string) :
  String.leb x y = true ↔ ¬ String_as_OT.lt y x.
Proof.
  unfold String.leb. rewrite <- String_as_OT.cmp_lt.
  unfold String_as_OT.cmp. rewrite (String.compare_antisym x y).
  destruct (String.compare y x); simpl; split; intros; congruence.
Qed.

Lemma leb_trans (x y z : string) :
  String.leb x y = true → String.leb y z = true → String.leb x z = true.
Proof.
  rewrite !leb_not_lts. intros Hxy Hyz Hzx.
  destruct (String.compare x y) eqn:Hc.
  - apply String.compare_eq_iff in Hc. subst. by apply Hyz.
  - apply Hyz. eapply String_as_OT.lt_trans; [exact Hzx|].
    by apply String_as_OT.cmp_lt.
  - apply Hxy. apply String_as_OT.cmp_lt. unfold String_as_OT.cmp.
    rewrite String.compare_antisym, Hc. done.
Qed.

Lemma key_leb_total (a b : option string) :
  key_leb a b = true ∨ key_leb b a = true.
Proof. destruct a, b; simpl; auto using String.leb_total. Qed.

Lemma key_leb_trans (a b c : option string) :
  key_leb a b = true → key_leb b c = true → key_leb a c = true.
Proof. destruct a, b, c; simpl; eauto using leb_trans; done. Qed.

(** ** Sorting newest first *)

Lemma insert_desc_Permutation d l : insert_desc d l ≡ₚ d :: l.
Proof.
  induction l as [|x l IH]; simpl; [done|].
  destruct (key_leb _ _); [done|].
  rewrite IH. apply Permutation_swap.
Qed.

Lemma sort_desc_Permutation l : sort_desc l ≡ₚ l.
Proof.
  induction l as [|d l IH]; simpl; [done|].
  by rewrite insert_desc_Permutation, IH.
Qed.

Lemma insert_desc_sorted d l :
  StronglySorted newest_first l → StronglySorted newest_first (insert_desc d l).
Proof.
  induction 1 as [|x l Hl IH Hx]; simpl.
  - repeat constructor.
  - destruct (key_leb (created_at_key x) (created_at_key d)) eqn:Hk.
    + constructor; [by constructor|].
      constructor; [exact Hk|].
      eapply Forall_impl; [exact Hx|].
      intros y Hy. unfold newest_first in *. eauto using key_leb_trans.
    + constructor; [exact IH|].
      rewrite insert_desc_Permutation. constructor; [|exact Hx].
      unfold newest_first.
      destruct (key_leb_total (created_at_key x) (created_at_key d));
        congruence.
Qed.

Lemma sort_desc_sorted l : StronglySorted newest_first (sort_desc l).
Proof.
  induction l; simpl; [constructor | by apply insert_desc_sorted].
Qed.

Lemma filter_sorted (f : Document → bool) l :
  StronglySorted newest_first l →
  StronglySorted newest_first (List.filter f l).
Proof.
  induction 1 as [|x l Hl IH Hx]; simpl; [constructor|].
  destruct (f x); [|exact IH].
  constructor; [exact IH|].
  rewrite Forall_forall in *. intros y Hy.
  apply Hx. apply list_elem_of_In. apply list_elem_of_In in Hy.
  by apply filter_In in Hy as [? _].
Qed.

Lemma filter_bool_Prop {A} (f : A → bool) (l : list A) :
  List.filter f l = filter (λ x, f x = true) l.
Proof.
  induction l as [|x l IH]; simpl; [done|].
  rewrite filter_cons. destruct (f x) eqn:Hf; rewrite IH.
  - by rewrite decide_True.
  - by rewrite decide_False.
Qed.

(** ** Active announcements *)

Lemma started_spec now d :
  started now d = true
  ↔ ∀ s, fields d !! "start_date" = Some (VStr s) → String.ltb now s = false.
Proof.
  unfold started, truthy, gt_string.
  destruct (fields d !! "start_date") as [[|s]|]; simpl.
  - split; [intros _ s; discriminate | done].
  - split.
    + intros H s' Heq. injection Heq as <-.
      destruct (String.ltb now s) eqn:Hlt; [|done].
      destruct (String.eqb_spec s EmptyString) as [->|]; [|done].
      by rewrite ltb_empty_r in Hlt.
    + intros H. rewrite (H s eq_refl). by rewrite andb_false_r.
  - split; [intros _ s; discriminate | done].
Qed.

Lemma kept_spec now d : kept now d = true ↔ is_active now d.
Proof.
  unfold kept, is_active. rewrite andb_true_iff, started_spec.
  apply and_iff_compat_r. unfold gt_string.
  destruct (fields d !! "expiration_date") as [[|e]|]; simpl.
  - split; [done | by intros (? & [=] & _)].
  - split; [by eauto | by intros (? & [= <-] & ?)].
  - split; [done | by intros (? & [=] & _)].
Qed.

Lemma list_active_docs L now st :
  list_active_announcements L now st =
  (Return (map (_serialize_announcement L)
             (List.filter (started now)
                (sort_desc
                   (List.filter
                      (λ d, gt_string (fields d !! "expiration_date") now)
                      (announcements_collection st))))), st).
Proof. reflexivity. Qed.

Lemma active_docs_Permutation now c :
  List.filter (started now)
    (sort_desc
       (List.filter (λ d, gt_string (fields d !! "expiration_date") now) c))
  ≡ₚ filter (is_active now) c.
Proof.
  rewrite !filter_bool_Prop, sort_desc_Permutation, list_filter_filter.
  apply reflexive_eq, list_filter_iff. intros d.
  rewrite <- kept_spec. unfold kept. rewrite andb_true_iff. tauto.
Qed.

(** C1. For every store and every [now], list-active returns (serialized)
    exactly the stored records whose expiration_date is string-greater
    than [now] and whose start_date is absent or not string-greater than
    [now], each as often as it is stored, ordered by created_at
    descending; a stored record that is left out has an expiration_date
    that is not greater than [now] or a start_date that is. The
    collections are not written. *)
Theorem list_active_exact (L : Library) (now : string) (st : State) :
  ∃ docs : list Document,
    list_active_announcements L now st
      = (Return (map (_serialize_announcement L) docs), st)
    ∧ docs ≡ₚ filter (is_active now) (announcements_collection st)
    ∧ StronglySorted newest_first docs
    ∧ ∀ d, d ∈ announcements_collection st → d ∉ docs →
        gt_string (fields d !! "expiration_date") now = false
        ∨ ∃ s, fields d !! "start_date" = Some (VStr s)
               ∧ String.ltb now s = true.
Proof.
  eexists. split; [apply list_active_docs|].
  split; [apply active_docs_Permutation|].
  split; [apply filter_sorted, sort_desc_sorted|].
  intros d Hd Hout.
  rewrite active_docs_Permutation, list_elem_of_filter in Hout.
  destruct (gt_string (fields d !! "expiration_date") now) eqn:Hexp;
    [right | by left].
  destruct (started now d) eqn:Hst.
  - exfalso. apply Hout. split; [|exact Hd].
    apply kept_spec. unfold kept. by rewrite Hexp, Hst.
  - unfold started, truthy, gt_string in Hst.
    destruct (fields d !! "start_date") as [[|s]|]; simpl in Hst; try done.
    exists s. split; [done|].
    destruct (String.ltb now s); [done|].
    by rewrite andb_false_r in Hst.
Qed.

(** ** Outcomes of the authenticated endpoints *)

Section HandlerFacts.

Variable L : Library.

Lemma validate_teacher_known u t st :
  teachers_collection st !! u = Some t →
  _validate_teacher u st = (Return tt, st).
Proof. intros H. unfold_ops. by rewrite H. Qed.

Lemma validate_teacher_unknown u st :
  teachers_collection st !! u = None →
  _validate_teacher u st = (HTTPException 401 "Unauthorized", st).
Proof. intros H. unfold_ops. by rewrite H. Qed.

Lemma validate_dates_frame sd ed st :
  snd (_validate_dates L sd ed st) = st.
Proof.
  unfold _validate_dates, raise, ret, uncaught.
  repeat case_match; done.
Qed.

Lemma validate_dates_not_401 sd ed st :
  status (fst (_validate_dates L sd ed st)) ≠ Some 401.
Proof.
  unfold _validate_dates, raise, ret, uncaught.
  repeat case_match; done.
Qed.

Lemma validate_dates_ok sd ed st :
  valid_dates L sd ed → _validate_dates L sd ed st = (Return tt, st).
Proof.
  intros (exp & Hexp & Hs). unfold _validate_dates. rewrite Hexp.
  destruct sd as [s|]; [|done].
  destruct Hs as [->|(start & Hstart & Hge)]; [done|].
  destruct (String.eqb s EmptyString); [done|].
  by rewrite Hstart, Hge.
Qed.

Lemma find_by_id_None o c : find_by_id o c = None ↔ absent o c.
Proof.
  unfold absent. induction c as [|x c IH]; simpl.
  - split; [intros _ d Hd; by apply elem_of_nil in Hd | done].
  - destruct (decide (_id x = o)) as [Hx|Hx].
    + split; [done|]. intros H. destruct (H x); [left | done].
    + rewrite IH. split.
      * intros H d [->|Hd]%elem_of_cons; [done | by apply H].
      * intros H d Hd. apply H. by right.
Qed.

Lemma delete_first_zero o c :
  fst (delete_first o c) = 0 ↔ absent o c.
Proof.
  unfold absent. induction c as [|x c IH]; simpl.
  - split; [intros _ d Hd; by apply elem_of_nil in Hd | done].
  - destruct (decide (_id x = o)) as [Hx|Hx]; simpl.
    + split; [done|]. intros H. destruct (H x); [left | done].
    + destruct (delete_first o c) as [n r]; simpl in *.
      rewrite IH. split.
      * intros H d [->|Hd]%elem_of_cons; [done | by apply H].
      * intros H d Hd. apply H. by right.
Qed.

Lemma delete_first_absent o c :
  absent o c → delete_first o c = (0, c).
Proof.
  unfold absent. induction c as [|x c IH]; simpl; [done|]. intros H.
  destruct (decide (_id x = o)) as [Hx|Hx].
  - destruct (H x); [left | done].
  - rewrite IH; [done|]. intros d Hd. apply H. by right.
Qed.

Lemma set_announcements_id st :
  set_announcements (announcements_collection st) st = st.
Proof. by destruct st. Qed.

End HandlerFacts.

(** C3. Create, update and delete fail with status 401 exactly when the
    identity store has no teacher record under the given username, and
    the identity check leaves both collections as they were. *)
Theorem unauthorized_iff_unknown_teacher (L : Library) (now : string)
  (new_id : oid) (announcement_id : string) (body : AnnouncementCreate)
  (username : string) (st : State) :
  (status (fst (create_announcement L now new_id body username st))
     = Some 401 ↔ teachers_collection st !! username = None)
  ∧ (status (fst (update_announcement L announcement_id body username st))
     = Some 401 ↔ teachers_collection st !! username = None)
  ∧ (status (fst (delete_announcement L announcement_id username st))
     = Some 401 ↔ teachers_collection st !! username = None)
  ∧ snd (_validate_teacher username st) = st.
Proof.
  destruct (teachers_collection st !! username) as [t|] eqn:Ht.
  - pose proof (validate_dates_not_401 L (start_date body)
                  (expiration_date body) st) as Hd.
    split; [|split; [|split]]; [split; [|done]..|].
    + unfold create_announcement, bind.
      rewrite (validate_teacher_known username t) by done.
      destruct (_validate_dates _ _ _ st) as [[[]|c d|e] st']; simpl in *;
        unfold_ops; simpl; congruence.
    + unfold update_announcement, bind.
      rewrite (validate_teacher_known username t) by done.
      destruct (_validate_dates _ _ _ st) as [[[]|c d|e] st']; simpl in *;
        try congruence.
      unfold_ops. repeat case_match; simplify_eq/=; done.
    + unfold delete_announcement, bind.
      rewrite (validate_teacher_known username t) by done.
      unfold_ops. repeat case_match; simplify_eq/=; done.
    + by rewrite (validate_teacher_known username t).
  - split; [|split; [|split]]; [split; [done|intros _]..|].
    + unfold create_announcement, bind.
      by rewrite validate_teacher_unknown.
    + unfold update_announcement, bind.
      by rewrite validate_teacher_unknown.
    + unfold delete_announcement, bind.
      by rewrite validate_teacher_unknown.
    + by rewrite validate_teacher_unknown.
Qed.

(** C10. The identity check comes first: with an unknown username,
    create, update and delete fail with 401 Unauthorized whatever the
    dates and the identifier are, malformed or not. *)
Theorem unknown_teacher_first (L : Library) (now : string) (new_id : oid)
  (announcement_id : string) (body : AnnouncementCreate)
  (username : string) (st : State) :
  teachers_collection st !! username = None →
  create_announcement L now new_id body username st
    = (HTTPException 401 "Unauthorized", st)
  ∧ update_announcement L announcement_id body username st
    = (HTTPException 401 "Unauthorized", st)
  ∧ delete_announcement L announcement_id username st
    = (HTTPException 401 "Unauthorized", st).
Proof.
  intros H. unfold create_announcement, update_announcement,
    delete_announcement, bind.
  by rewrite validate_teacher_unknown.
Qed.

(** C4. For a known teacher, an identifier that is not a well-formed key
    makes update (given valid dates) and delete fail with 400 "Invalid
    announcement ID": not with 404 and not with an unhandled exception.
    Nothing is written. *)
Theorem malformed_id_is_400 (L : Library) (announcement_id : string)
  (body : AnnouncementCreate) (username : string) (st : State) :
  is_Some (teachers_collection st !! username) →
  ObjectId L announcement_id = None →
  (valid_dates L (start_date body) (expiration_date body) →
   update_announcement L announcement_id body username st
     = (HTTPException 400 "Invalid announcement ID", st))
  ∧ delete_announcement L announcement_id username st
    = (HTTPException 400 "Invalid announcement ID", st).
Proof.
  intros [t Ht] Hid. split.
  - intros Hdates. unfold update_announcement, bind.
    rewrite (validate_teacher_known username t) by done.
    rewrite validate_dates_ok by done. by rewrite Hid.
  - unfold delete_announcement, bind.
    rewrite (validate_teacher_known username t) by done. by rewrite Hid.
Qed.

(** C5. For a known teacher and a well-formed identifier that matches no
    stored record, update (given valid dates) and delete fail with 404
    "Announcement not found"; and delete with a well-formed identifier
    fails with 404 exactly when [delete_one] removed zero records. *)
Theorem missing_record_is_404 (L : Library) (announcement_id : string)
  (obj_id : oid) (body : AnnouncementCreate) (username : string)
  (st : State) :
  is_Some (teachers_collection st !! username) →
  ObjectId L announcement_id = Some obj_id →
  (absent obj_id (announcements_collection st) →
   (valid_dates L (start_date body) (expiration_date body) →
    update_announcement L announcement_id body username st
      = (HTTPException 404 "Announcement not found", st))
   ∧ delete_announcement L announcement_id username st
     = (HTTPException 404 "Announcement not found", st))
  ∧ (status (fst (delete_announcement L announcement_id username st))
       = Some 404
     ↔ fst (delete_first obj_id (announcements_collection st)) = 0).
Proof.
  intros [t Ht] Hid. split.
  - intros Habs. split.
    + intros Hdates. unfold update_announcement, bind.
      rewrite (validate_teacher_known username t) by done.
      rewrite validate_dates_ok by done. rewrite Hid.
      unfold find_one. by rewrite (proj2 (find_by_id_None _ _) Habs).
    + unfold delete_announcement, bind.
      rewrite (validate_teacher_known username t) by done. rewrite Hid.
      unfold delete_one. rewrite delete_first_absent by done. simpl.
      by rewrite set_announcements_id.
  - unfold delete_announcement, bind.
    rewrite (validate_teacher_known username t) by done. rewrite Hid.
    unfold delete_one.
    destruct (delete_first obj_id (announcements_collection st)) as [n c].
    simpl. destruct (Z.eqb_spec n 0); simpl; split; congruence.
Qed.

(** C8. A create, update or delete request that fails with an HTTP error
    (401, 400 or 404) leaves both collections exactly as they were. *)
Theorem failure_leaves_store (L : Library) (now : string) (new_id : oid)
  (announcement_id : string) (body : AnnouncementCreate)
  (username : string) (st : State) :
  (∀ c d, fst (create_announcement L now new_id body username st)
            = HTTPException c d →
     snd (create_announcement L now new_id body username st) = st)
  ∧ (∀ c d, fst (update_announcement L announcement_id body username st)
              = HTTPException c d →
       snd (update_announcement L announcement_id body username st) = st)
  ∧ (∀ c d, fst (delete_announcement L announcement_id username st)
              = HTTPException c d →
       snd (delete_announcement L announcement_id username st) = st).
Proof.
  pose proof (validate_dates_frame L (start_date body)
                (expiration_date body) st) as Hf.
  destruct (teachers_collection st !! username) as [t|] eqn:Ht.
  2: { unfold create_announcement, update_announcement,
         delete_announcement, bind.
       by rewrite validate_teacher_unknown. }
  unfold create_announcement, update_announcement, delete_announcement, bind.
  rewrite (validate_teacher_known username t) by done.
  split; [|split]; intros c d.
  - destruct (_validate_dates _ _ _ st) as [[[]|c' d'|e] st']; simpl in *;
      subst; done.
  - destruct (_validate_dates _ _ _ st) as [[[]|c' d'|e] st']; simpl in *;
      subst; try done.
    destruct (ObjectId L announcement_id) as [o|]; [|done].
    unfold_ops. by destruct (find_by_id o (announcements_collection st)).
  - destruct (ObjectId L announcement_id) as [o|]; [|done].
    unfold delete_one.
    pose proof (delete_first_zero o (announcements_collection st)) as Hz.
    destruct (delete_first o (announcements_collection st)) as [n r] eqn:Hdel.
    simpl in *. destruct (Z.eqb_spec n 0) as [->|]; [|done].
    intros _. rewrite delete_first_absent in Hdel by by apply Hz.
    injection Hdel as <-. apply set_announcements_id.
Qed.

(** ** Update and create *)

Lemma update_first_split o c d :
  find_by_id o c = Some d →
  ∃ pre post,
    c = pre ++ d :: post ∧ absent o pre ∧ _id d = o
    ∧ ∀ data, update_first o data c = pre ++ apply_set data d :: post.
Proof.
  induction c as [|x c IH]; simpl; [done|].
  destruct (decide (_id x = o)) as [Hx|Hx].
  - intros [= ->]. exists [], c. repeat split; try done.
    intros y Hy. by apply elem_of_nil in Hy.
  - intros (pre & post & -> & Hpre & Hd & Hupd)%IH.
    exists (x :: pre), post. repeat split; try done.
    + intros y [->|Hy]%elem_of_cons; [done | by apply Hpre].
    + intros data. simpl. by rewrite Hupd.
Qed.

Lemma find_by_id_middle o pre d post :
  absent o pre → _id d = o → find_by_id o (pre ++ d :: post) = Some d.
Proof.
  intros Hpre Hd. induction pre as [|x pre IH]; simpl.
  - by rewrite decide_True.
  - rewrite decide_False by (apply Hpre; left).
    apply IH. intros y Hy. apply Hpre. by right.
Qed.

Lemma update_data_lookup body k :
  update_data body !! k =
  if decide (k = "message") then Some (VStr (message body))
  else if decide (k = "start_date") then Some (of_optional (start_date body))
  else if decide (k = "expiration_date")
       then Some (VStr (expiration_date body))
  else None.
Proof.
  unfold update_data. repeat case_decide; simplify_map_eq; done.
Qed.

(** The fields of a record after [$set] of the request body. *)
Lemma apply_set_fields body d :
  fields (apply_set (update_data body) d) !! "message"
    = Some (VStr (message body))
  ∧ fields (apply_set (update_data body) d) !! "start_date"
    = Some (of_optional (start_date body))
  ∧ fields (apply_set (update_data body) d) !! "expiration_date"
    = Some (VStr (expiration_date body))
  ∧ ∀ k, k ≠ "message" → k ≠ "start_date" → k ≠ "expiration_date" →
      fields (apply_set (update_data body) d) !! k = fields d !! k.
Proof.
  unfold apply_set; simpl. repeat split.
  - apply lookup_union_Some_l. by rewrite update_data_lookup.
  - apply lookup_union_Some_l. by rewrite update_data_lookup.
  - apply lookup_union_Some_l. by rewrite update_data_lookup.
  - intros k H1 H2 H3. apply lookup_union_r.
    rewrite update_data_lookup. by rewrite !decide_False.
Qed.

(** C6. A successful update returns the acknowledgment, not the record.
    It rewrites one stored record, the first with the given key: there
    message, start_date and expiration_date take the submitted values,
    while the identifier and every other field (created_by and
    created_at among them) keep theirs. All other records, their order,
    and the teacher collection are unchanged. *)
Theorem update_overwrites_three_fields (L : Library)
  (announcement_id : string) (body : AnnouncementCreate)
  (username : string) (st st' : State) (r : gmap string Value) :
  update_announcement L announcement_id body username st = (Return r, st') →
  r = ack "Announcement updated successfully"
  ∧ teachers_collection st' = teachers_collection st
  ∧ ∃ obj_id pre d d' post,
      ObjectId L announcement_id = Some obj_id
      ∧ announcements_collection st = pre ++ d :: post
      ∧ announcements_collection st' = pre ++ d' :: post
      ∧ absent obj_id pre ∧ _id d = obj_id ∧ _id d' = _id d
      ∧ fields d' !! "message" = Some (VStr (message body))
      ∧ fields d' !! "start_date" = Some (of_optional (start_date body))
      ∧ fields d' !! "expiration_date"
        = Some (VStr (expiration_date body))
      ∧ fields d' !! "created_by" = fields d !! "created_by"
      ∧ fields d' !! "created_at" = fields d !! "created_at"
      ∧ ∀ k, k ≠ "message" → k ≠ "start_date" → k ≠ "expiration_date" →
          fields d' !! k = fields d !! k.
Proof.
  unfold update_announcement, bind.
  destruct (_validate_teacher username st) as [[[]|?|?] st1] eqn:Ht;
    try done.
  assert (st1 = st) as ->.
  { revert Ht. unfold_ops. by case_match; intros [= <-]. }
  pose proof (validate_dates_frame L (start_date body)
                (expiration_date body) st) as Hf.
  destruct (_validate_dates _ _ _ st) as [[[]|?|?] st2]; try done.
  simpl in Hf. subst st2.
  destruct (ObjectId L announcement_id) as [o|]; [|done].
  unfold find_one.
  destruct (find_by_id o (announcements_collection st)) as [d|] eqn:Hfind;
    [|done].
  unfold update_one, ret. intros [= <- <-].
  destruct (update_first_split _ _ _ Hfind)
    as (pre & post & Hc & Hpre & Hd & Hupd).
  destruct (apply_set_fields body d) as (Hm & Hs & He & Hk).
  split; [done|]. split; [done|].
  exists o, pre, d, (apply_set (update_data body) d), post.
  simpl. rewrite Hupd.
  repeat split; try done; by apply Hk.
Qed.

Lemma new_doc_lookup body u now k :
  new_doc body u now !! k =
  if decide (k = "message") then Some (VStr (message body))
  else if decide (k = "start_date") then Some (of_optional (start_date body))
  else if decide (k = "expiration_date")
       then Some (VStr (expiration_date body))
  else if decide (k = "created_by") then Some (VStr u)
  else if decide (k = "created_at") then Some (VStr now)
  else None.
Proof.
  unfold new_doc. repeat case_decide; simplify_map_eq; done.
Qed.

(** C7. A successful create returns a record with the submitted message,
    start_date and expiration_date, created_by the caller's username,
    created_at the server's current time, and "id" the string form of
    the key the store assigned; it has no other field. The same fields,
    without "id", are appended to the collection under that key, and
    nothing else in either collection changes. *)
Theorem create_returns_stored_record (L : Library) (now : string)
  (new_id : oid) (body : AnnouncementCreate) (username : string)
  (st st' : State) (r : gmap string Value) :
  create_announcement L now new_id body username st = (Return r, st') →
  r !! "message" = Some (VStr (message body))
  ∧ r !! "start_date" = Some (of_optional (start_date body))
  ∧ r !! "expiration_date" = Some (VStr (expiration_date body))
  ∧ r !! "created_by" = Some (VStr username)
  ∧ r !! "created_at" = Some (VStr now)
  ∧ r !! "id" = Some (VStr (str L new_id))
  ∧ dom r = {[ "message"; "start_date"; "expiration_date";
               "created_by"; "created_at"; "id" ]}
  ∧ teachers_collection st' = teachers_collection st
  ∧ ∃ doc, announcements_collection st'
           = announcements_collection st ++ [mkDocument new_id doc]
      ∧ doc !! "id" = None
      ∧ ∀ k, k ≠ "id" → doc !! k = r !! k.
Proof.
  unfold create_announcement, bind.
  destruct (_validate_teacher username st) as [[[]|?|?] st1] eqn:Ht;
    try done.
  assert (st1 = st) as ->.
  { revert Ht. unfold_ops. by case_match; intros [= <-]. }
  pose proof (validate_dates_frame L (start_date body)
                (expiration_date body) st) as Hf.
  destruct (_validate_dates _ _ _ st) as [[[]|?|?] st2]; try done.
  simpl in Hf. subst st2.
  unfold insert_one, ret. intros [= <- <-].
  split; [by rewrite lookup_insert_ne, new_doc_lookup|].
  split; [by rewrite lookup_insert_ne, new_doc_lookup|].
  split; [by rewrite lookup_insert_ne, new_doc_lookup|].
  split; [by rewrite lookup_insert_ne, new_doc_lookup|].
  split; [by rewrite lookup_insert_ne, new_doc_lookup|].
  split; [by rewrite lookup_insert_eq|].
  split; [unfold new_doc; rewrite !dom_insert_L, dom_empty_L; set_solver|].
  split; [done|].
  exists (new_doc body username now). simpl.
  split; [done|]. split; [by rewrite new_doc_lookup|].
  intros k Hk. by rewrite lookup_insert_ne.
Qed.

(** ** Date validation *)

Lemma lex_compare_refl l : lex_compare l l = Eq.
Proof. induction l as [|x l IH]; simpl; [done|]. by rewrite Z.compare_refl. Qed.

Lemma dt_ge_refl d : dt_ge d d = Some true.
Proof.
  unfold dt_ge, _cmp. destruct (utcoffset d) as [off|].
  - by rewrite Z.eqb_refl, lex_compare_refl.
  - by rewrite lex_compare_refl.
Qed.

Lemma validate_dates_not_before L s ed start exp st :
  s ≠ EmptyString →
  fromisoformat L s = Some start →
  fromisoformat L ed = Some exp →
  dt_ge start exp = Some true →
  _validate_dates L (Some s) ed st
  = (HTTPException 400 "Start date must be before expiration date", st).
Proof.
  intros Hs Hstart Hexp Hge. unfold _validate_dates. rewrite Hexp.
  destruct (String.eqb_spec s EmptyString); [done|].
  by rewrite Hstart, Hge.
Qed.

(** C2, amended. For a create or update request by a known teacher whose
    start_date is present and non-empty, with both dates parsing: when
    the parsed start compares [>=] to the parsed expiration, and in
    particular when the two are the same timestamp, the request fails
    with 400 "Start date must be before expiration date" and nothing is
    written. *)
Theorem late_start_is_400 (L : Library) (now : string) (new_id : oid)
  (announcement_id : string) (body : AnnouncementCreate)
  (username : string) (st : State) (s : string) (start exp : datetime) :
  is_Some (teachers_collection st !! username) →
  start_date body = Some s → s ≠ EmptyString →
  fromisoformat L s = Some start →
  fromisoformat L (expiration_date body) = Some exp →
  dt_ge start exp = Some true ∨ start = exp →
  create_announcement L now new_id body username st
    = (HTTPException 400 "Start date must be before expiration date", st)
  ∧ update_announcement L announcement_id body username st
    = (HTTPException 400 "Start date must be before expiration date", st).
Proof.
  intros [t Ht] Hsd Hs Hstart Hexp Hge.
  assert (dt_ge start exp = Some true) as Hge'.
  { destruct Hge as [Hge | ->]; [exact Hge | apply dt_ge_refl]. }
  unfold create_announcement, update_announcement, bind.
  rewrite (validate_teacher_known username t) by done.
  rewrite Hsd.
  by rewrite (validate_dates_not_before L s _ start exp).
Qed.

(** ** An empty start date *)

Lemma listed_iff_unexpired L now st d :
  d ∈ announcements_collection st →
  fields d !! "start_date" = Some (VStr EmptyString) →
  ∃ docs, list_active_announcements L now st
          = (Return (map (_serialize_announcement L) docs), st)
    ∧ (d ∈ docs ↔ gt_string (fields d !! "expiration_date") now = true).
Proof.
  intros Hd Hs. eexists. split; [apply list_active_docs|].
  rewrite active_docs_Permutation, list_elem_of_filter, <- kept_spec.
  unfold kept, started. rewrite Hs. simpl. rewrite andb_true_r. tauto.
Qed.

(** C9, amended. With an empty start_date, a known teacher and a
    parseable expiration_date, date validation passes without parsing
    the start or comparing it (whatever the library would make of the
    empty string). Create then succeeds and stores start_date as the
    empty string; update succeeds whenever its identifier is well-formed
    and matches a stored record, and leaves the empty string in that
    record. List-active treats a record with an empty start_date as one
    without a start: it is listed exactly when its expiration_date is
    greater than now. *)
Theorem empty_start_is_no_start (L : Library) (now : string)
  (new_id : oid) (announcement_id : string) (body : AnnouncementCreate)
  (username : string) (st : State) :
  is_Some (teachers_collection st !! username) →
  start_date body = Some EmptyString →
  is_Some (fromisoformat L (expiration_date body)) →
  _validate_dates L (start_date body) (expiration_date body) st
    = (Return tt, st)
  ∧ (∃ r doc,
       create_announcement L now new_id body username st
       = (Return r,
          set_announcements
            (announcements_collection st ++ [mkDocument new_id doc]) st)
       ∧ doc !! "start_date" = Some (VStr EmptyString))
  ∧ (∀ obj_id,
       ObjectId L announcement_id = Some obj_id →
       ¬ absent obj_id (announcements_collection st) →
       ∃ st' d',
         update_announcement L announcement_id body username st
         = (Return (ack "Announcement updated successfully"), st')
         ∧ find_by_id obj_id (announcements_collection st') = Some d'
         ∧ fields d' !! "start_date" = Some (VStr EmptyString))
  ∧ (∀ now' st1 d,
       d ∈ announcements_collection st1 →
       fields d !! "start_date" = Some (VStr EmptyString) →
       ∃ docs,
         list_active_announcements L now' st1
         = (Return (map (_serialize_announcement L) docs), st1)
         ∧ (d ∈ docs
            ↔ gt_string (fields d !! "expiration_date") now' = true)).
Proof.
  intros [t Ht] Hsd [exp Hexp].
  assert (_validate_dates L (start_date body) (expiration_date body) st
          = (Return tt, st)) as Hv.
  { unfold _validate_dates. by rewrite Hexp, Hsd. }
  split; [exact Hv|]. split; [|split].
  - exists (<["id" := VStr (str L new_id)]> (new_doc body username now)),
      (new_doc body username now).
    split.
    + unfold create_announcement, bind.
      rewrite (validate_teacher_known username t) by done.
      by rewrite Hv.
    + by rewrite new_doc_lookup, Hsd.
  - intros o Hid Hpresent.
    destruct (find_by_id o (announcements_collection st)) as [d|] eqn:Hfind.
    2: { by apply find_by_id_None in Hfind. }
    destruct (update_first_split _ _ _ Hfind)
      as (pre & post & Hc & Hpre & Hd & Hupd).
    destruct (apply_set_fields body d) as (_ & Hs & _).
    eexists _, (apply_set (update_data body) d). split; [|split].
    + unfold update_announcement, bind.
      rewrite (validate_teacher_known username t) by done.
      rewrite Hv, Hid. unfold find_one. rewrite Hfind.
      unfold update_one, ret. reflexivity.
    + simpl. rewrite Hupd. by apply find_by_id_middle.
    + by rewrite Hs, Hsd.
  - intros now' st1 d. apply listed_iff_unexpired.
Qed.

(** ** Evaluations on the sample store *)

Import Sample.

(** An unknown caller submitting equal start and expiration timestamps
    gets 401, not 400: the rule on late starts does not hold as worded. *)
Lemma late_start_unknown_teacher_gets_401 :
  teachers_collection st0 !! "intruder" = None
  ∧ start_date body_equal = Some equal_ts
  ∧ fromisoformat lib equal_ts = fromisoformat lib (expiration_date body_equal)
  ∧ create_announcement lib now0 id9 body_equal "intruder" st0
    = (HTTPException 401 "Unauthorized", st0)
  ∧ ¬ late_start_always_400.
Proof.
  split; [reflexivity|]. split; [reflexivity|]. split; [reflexivity|].
  split; [reflexivity|]. intros H.
  destruct (H lib now0 id9 fair_key body_equal "intruder" st0 equal_ts
              (mkDatetime 2999 1 1 0 0 0 0 None)
              (mkDatetime 2999 1 1 0 0 0 0 None)) as [Hc _];
    try reflexivity; [done|].
  vm_compute in Hc. discriminate Hc.
Qed.

(** A known teacher updating with an empty start date under a malformed
    identifier gets 400: the rule on empty start dates does not hold as
    worded. *)
Lemma empty_start_update_can_fail :
  is_Some (teachers_collection st0 !! "t1")
  ∧ start_date body_empty_start = Some EmptyString
  ∧ is_Some (fromisoformat lib (expiration_date body_empty_start))
  ∧ update_announcement lib "not-a-valid-id" body_empty_start "t1" st0
    = (HTTPException 400 "Invalid announcement ID", st0)
  ∧ ¬ empty_start_always_succeeds.
Proof.
  assert (is_Some (teachers_collection st0 !! "t1")) as Ht
    by (vm_compute; eauto).
  assert (is_Some (fromisoformat lib (expiration_date body_empty_start)))
    as He by (vm_compute; eauto).
  split; [exact Ht|]. split; [reflexivity|]. split; [exact He|].
  split; [reflexivity|]. intros H.
  destruct (H lib now0 id9 "not-a-valid-id" body_empty_start "t1" st0
              Ht eq_refl He) as [_ (r & st' & Hu)].
  vm_compute in Hu. discriminate Hu.
Qed.

(** The scenarios of the written description, and the comparison of a
    timezone-aware start with a naive expiration, which is not caught. *)

Example scenario_create :
  fst (create_announcement lib now0 id9 body_ok "t1" st0)
  = Return (<["id" := VStr free_key]> (new_doc body_ok "t1" now0))
  ∧ new_doc body_ok "t1" now0 !! "created_by" = Some (VStr "t1")
  ∧ announcements_collection
      (snd (create_announcement lib now0 id9 body_ok "t1" st0))
    = [exam; fair; old; mkDocument id9 (new_doc body_ok "t1" now0)].
Proof. repeat split; reflexivity. Qed.

Example scenario_create_late_start :
  fst (create_announcement lib now0 id9 body_late "t1" st0)
  = HTTPException 400 "Start date must be before expiration date".
Proof. reflexivity. Qed.

Example scenario_update_bad_id :
  fst (update_announcement lib "not-a-valid-id" body_ok "t1" st0)
  = HTTPException 400 "Invalid announcement ID".
Proof. reflexivity. Qed.

Example scenario_delete_absent :
  fst (delete_announcement lib free_key "t1" st0)
  = HTTPException 404 "Announcement not found".
Proof. reflexivity. Qed.

Example scenario_delete_present :
  delete_announcement lib fair_key "t1" st0
  = (Return (ack "Announcement deleted successfully"),
     set_announcements [exam; old] st0).
Proof. reflexivity. Qed.

Example scenario_list_active :
  fst (list_active_announcements lib now0 st0)
  = Return [_serialize_announcement lib exam].
Proof. reflexivity. Qed.

Example scenario_list_all :
  fst (list_announcements lib st0)
  = Return (map (_serialize_announcement lib) [old; fair; exam]).
Proof. reflexivity. Qed.

Example scenario_aware_start_naive_expiration :
  fst (create_announcement lib now0 id9
         (mkAnnouncementCreate "Mixed" (Some "2999-02-01T00:00:00+00:00")
            "2999-01-01T00:00:00") "t1" st0)
  = Uncaught "TypeError".
Proof. reflexivity. Qed.

Example scenario_offsets_compared_as_instants :
  fst (create_announcement lib now0 id9
         (mkAnnouncementCreate "Offsets" (Some "2999-01-01T00:00:00+00:00")
            "2999-01-01T01:00:00+02:00") "t1" st0)
  = HTTPException 400 "Start date must be before expiration date".
Proof. reflexivity. Qed.

Lemma unknown_teacher_first_witness :
  teachers_collection st0 !! "intruder" = None
  ∧ create_announcement lib now0 id9 body_bad_dates "intruder" st0
    = (HTTPException 401 "Unauthorized", st0)
  ∧ update_announcement lib "not-a-valid-id" body_late "intruder" st0
    = (HTTPException 401 "Unauthorized", st0)
  ∧ delete_announcement lib "not-a-valid-id" "intruder" st0
    = (HTTPException 401 "Unauthorized", st0).
Proof.
  split; [reflexivity|].
  split; [|split].
  - apply (unknown_teacher_first lib now0 id9 "not-a-valid-id"
             body_bad_dates "intruder" st0). reflexivity.
  - apply (unknown_teacher_first lib now0 id9 "not-a-valid-id"
             body_late "intruder" st0). reflexivity.
  - apply (unknown_teacher_first lib now0 id9 "not-a-valid-id"
             body_late "intruder" st0). reflexivity.
Defined.

Lemma malformed_id_is_400_witness :
  is_Some (teachers_collection st0 !! "t1")
  ∧ ObjectId lib "not-a-valid-id" = None
  ∧ valid_dates lib (start_date body_ok) (expiration_date body_ok)
  ∧ update_announcement lib "not-a-valid-id" body_ok "t1" st0
    = (HTTPException 400 "Invalid announcement ID", st0)
  ∧ delete_announcement lib "not-a-valid-id" "t1" st0
    = (HTTPException 400 "Invalid announcement ID", st0).
Proof.
  assert (is_Some (teachers_collection st0 !! "t1")) as Ht
    by (vm_compute; eauto).
  assert (valid_dates lib (start_date body_ok) (expiration_date body_ok))
    as Hv by (eexists; split; [reflexivity | exact I]).
  split; [exact Ht|]. split; [reflexivity|]. split; [exact Hv|].
  destruct (malformed_id_is_400 lib "not-a-valid-id" body_ok "t1" st0
              Ht eq_refl) as [Hu Hd].
  split; [exact (Hu Hv) | exact Hd].
Defined.

Lemma missing_record_is_404_witness :
  is_Some (teachers_collection st0 !! "t1")
  ∧ ObjectId lib free_key = Some id9
  ∧ absent id9 (announcements_collection st0)
  ∧ update_announcement lib free_key body_ok "t1" st0
    = (HTTPException 404 "Announcement not found", st0)
  ∧ delete_announcement lib free_key "t1" st0
    = (HTTPException 404 "Announcement not found", st0).
Proof.
  assert (is_Some (teachers_collection st0 !! "t1")) as Ht
    by (vm_compute; eauto).
  assert (valid_dates lib (start_date body_ok) (expiration_date body_ok))
    as Hv by (eexists; split; [reflexivity | exact I]).
  assert (absent id9 (announcements_collection st0)) as Ha.
  { apply find_by_id_None. reflexivity. }
  split; [exact Ht|]. split; [reflexivity|]. split; [exact Ha|].
  destruct (missing_record_is_404 lib free_key id9 body_ok "t1" st0
              Ht eq_refl) as [H _].
  destruct (H Ha) as [Hu Hd].
  split; [exact (Hu Hv) | exact Hd].
Defined.

Lemma failure_leaves_store_witness :
  fst (create_announcement lib now0 id9 body_late "t1" st0)
    = HTTPException 400 "Start date must be before expiration date"
  ∧ snd (create_announcement lib now0 id9 body_late "t1" st0) = st0
  ∧ fst (update_announcement lib free_key body_ok "t1" st0)
    = HTTPException 404 "Announcement not found"
  ∧ snd (update_announcement lib free_key body_ok "t1" st0) = st0
  ∧ fst (delete_announcement lib free_key "intruder" st0)
    = HTTPException 401 "Unauthorized"
  ∧ snd (delete_announcement lib free_key "intruder" st0) = st0.
Proof.
  split; [reflexivity|]. split.
  { eapply (failure_leaves_store lib now0 id9 free_key body_late "t1" st0).
    reflexivity. }
  split; [reflexivity|]. split.
  { eapply (failure_leaves_store lib now0 id9 free_key body_ok "t1" st0).
    reflexivity. }
  split; [reflexivity|].
  eapply (failure_leaves_store lib now0 id9 free_key body_ok "intruder" st0).
  reflexivity.
Defined.

Lemma update_overwrites_three_fields_witness :
  update_announcement lib fair_key body_empty_start "t1" st0
  = (Return (ack "Announcement updated successfully"),
     snd (update_announcement lib fair_key body_empty_start "t1" st0))
  ∧ teachers_collection
      (snd (update_announcement lib fair_key body_empty_start "t1" st0))
    = teachers_collection st0.
Proof.
  assert (update_announcement lib fair_key body_empty_start "t1" st0
          = (Return (ack "Announcement updated successfully"),
             snd (update_announcement lib fair_key body_empty_start
                    "t1" st0))) as H by reflexivity.
  split; [exact H|].
  exact (proj1 (proj2 (update_overwrites_three_fields lib fair_key
                         body_empty_start "t1" st0 _ _ H))).
Defined.

Lemma create_returns_stored_record_witness :
  create_announcement lib now0 id9 body_ok "t1" st0
  = (Return (<["id" := VStr free_key]> (new_doc body_ok "t1" now0)),
     snd (create_announcement lib now0 id9 body_ok "t1" st0))
  ∧ <["id" := VStr free_key]> (new_doc body_ok "t1" now0) !! "created_by"
    = Some (VStr "t1").
Proof.
  assert (create_announcement lib now0 id9 body_ok "t1" st0
          = (Return (<["id" := VStr free_key]> (new_doc body_ok "t1" now0)),
             snd (create_announcement lib now0 id9 body_ok "t1" st0)))
    as H by reflexivity.
  split; [exact H|].
  exact (proj1 (proj2 (proj2 (proj2
           (create_returns_stored_record lib now0 id9 body_ok "t1" st0
              _ _ H))))).
Defined.

Lemma late_start_is_400_witness :
  is_Some (teachers_collection st0 !! "t1")
  ∧ start_date body_equal = Some equal_ts
  ∧ fromisoformat lib equal_ts = Some (mkDatetime 2999 1 1 0 0 0 0 None)
  ∧ fromisoformat lib (expiration_date body_equal)
    = Some (mkDatetime 2999 1 1 0 0 0 0 None)
  ∧ create_announcement lib now0 id9 body_equal "t1" st0
    = (HTTPException 400 "Start date must be before expiration date", st0)
  ∧ update_announcement lib fair_key body_equal "t1" st0
    = (HTTPException 400 "Start date must be before expiration date", st0).
Proof.
  assert (is_Some (teachers_collection st0 !! "t1")) as Ht
    by (vm_compute; eauto).
  split; [exact Ht|]. split; [reflexivity|]. split; [reflexivity|].
  split; [reflexivity|].
  apply (late_start_is_400 lib now0 id9 fair_key body_equal "t1" st0
           equal_ts (mkDatetime 2999 1 1 0 0 0 0 None)
           (mkDatetime 2999 1 1 0 0 0 0 None) Ht eq_refl);
    [discriminate | reflexivity | reflexivity | right; reflexivity].
Defined.

Lemma empty_start_is_no_start_witness :
  is_Some (teachers_collection st0 !! "t1")
  ∧ start_date body_empty_start = Some EmptyString
  ∧ is_Some (fromisoformat lib (expiration_date body_empty_start))
  ∧ _validate_dates lib (start_date body_empty_start)
      (expiration_date body_empty_start) st0 = (Return tt, st0).
Proof.
  assert (is_Some (teachers_collection st0 !! "t1")) as Ht
    by (vm_compute; eauto).
  assert (is_Some (fromisoformat lib (expiration_date body_empty_start)))
    as He by (vm_compute; eauto).
  split; [exact Ht|]. split; [reflexivity|]. split; [exact He|].
  exact (proj1 (empty_start_is_no_start lib now0 id9 fair_key
                  body_empty_start "t1" st0 Ht eq_refl He)).
Defined.

(** * Further properties of the endpoints *)

(** ** The two listings *)

(** The full listing is every stored record, serialized, newest first;
    the collections are not written. *)
Theorem list_announcements_all_newest_first (L : Library) (st : State) :
  ∃ docs : list Document,
    list_announcements L st
      = (Return (map (_serialize_announcement L) docs), st)
    ∧ docs ≡ₚ announcements_collection st
    ∧ StronglySorted newest_first docs.
Proof.
  exists (sort_desc (announcements_collection st)).
  split; [reflexivity|].
  split; [apply sort_desc_Permutation | apply sort_desc_sorted].
Qed.





(** ** Date validation *)

Lemma validate_dates_pure L sd ed st :
  _validate_dates L sd ed st = (fst (_validate_dates L sd ed st), st).
Proof.
  rewrite <- (validate_dates_frame L sd ed st) at 3.
  by destruct (_validate_dates L sd ed st).
Qed.

Lemma validate_dates_any_state L sd ed st st1 :
  fst (_validate_dates L sd ed st) = fst (_validate_dates L sd ed st1).
Proof.
  unfold _validate_dates, raise, ret, uncaught. repeat case_match; done.
Qed.

Lemma validate_dates_Return L sd ed st :
  fst (_validate_dates L sd ed st) = Return tt ↔ valid_dates L sd ed.
Proof.
  split; [|intros H; by rewrite validate_dates_ok].
  unfold _validate_dates, valid_dates, raise, ret, uncaught.
  destruct (fromisoformat L ed) as [exp|]; [|done].
  destruct sd as [s|]; [|by eauto].
  destruct (String.eqb_spec s EmptyString) as [->|Hs]; [by eauto|].
  destruct (fromisoformat L s) as [start|] eqn:Hstart; [|done].
  destruct (dt_ge start exp) as [[]|] eqn:Hge; try done.
  intros _. exists exp. split; [done|]. right. by exists start.
Qed.

(** The order of the checks in [_validate_dates]: an expiration that does
    not parse is reported whatever the start is; a start is looked at
    only when it is non-empty and the expiration parses, and is then
    reported if it does not parse. No outcome writes to a collection. *)
Theorem validate_dates_reports_expiration_first (L : Library)
  (start_date : option string) (expiration_date : string) (st : State) :
  (fromisoformat L expiration_date = None →
   _validate_dates L start_date expiration_date st
   = (HTTPException 400 "Invalid expiration date format", st))
  ∧ (∀ s, is_Some (fromisoformat L expiration_date) →
          start_date = Some s → s ≠ EmptyString →
          fromisoformat L s = None →
          _validate_dates L start_date expiration_date st
          = (HTTPException 400 "Invalid start date format", st))
  ∧ (is_Some (fromisoformat L expiration_date) →
     start_date = None ∨ start_date = Some EmptyString →
     _validate_dates L start_date expiration_date st = (Return tt, st)).
Proof.
  unfold _validate_dates. split; [|split].
  - by intros ->.
  - intros s [exp ->] -> Hs Hstart.
    destruct (String.eqb_spec s EmptyString); [done|]. by rewrite Hstart.
  - intros [exp ->] [->| ->]; done.
Qed.

(** ** Unfolding the handlers for a known teacher *)

Lemma create_known L now new_id body u t st :
  teachers_collection st !! u = Some t →
  create_announcement L now new_id body u st =
  match fst (_validate_dates L (start_date body) (expiration_date body) st)
  with
  | Return _ =>
      (Return (<["id" := VStr (str L new_id)]> (new_doc body u now)),
       set_announcements
         (announcements_collection st
          ++ [mkDocument new_id (new_doc body u now)]) st)
  | HTTPException c d => (HTTPException c d, st)
  | Uncaught e => (Uncaught e, st)
  end.
Proof.
  intros Ht. unfold create_announcement, bind.
  rewrite (validate_teacher_known u t) by done.
  rewrite validate_dates_pure.
  by destruct (fst (_validate_dates _ _ _ st)).
Qed.

Lemma update_known L id body u t st :
  teachers_collection st !! u = Some t →
  update_announcement L id body u st =
  match fst (_validate_dates L (start_date body) (expiration_date body) st)
  with
  | Return _ =>
      match ObjectId L id with
      | None => (HTTPException 400 "Invalid announcement ID", st)
      | Some o =>
          match find_by_id o (announcements_collection st) with
          | None => (HTTPException 404 "Announcement not found", st)
          | Some _ =>
              (Return (ack "Announcement updated successfully"),
               set_announcements
                 (update_first o (update_data body)
                    (announcements_collection st)) st)
          end
      end
  | HTTPException c d => (HTTPException c d, st)
  | Uncaught e => (Uncaught e, st)
  end.
Proof.
  intros Ht. unfold update_announcement, bind.
  rewrite (validate_teacher_known u t) by done.
  rewrite validate_dates_pure.
  destruct (fst (_validate_dates _ _ _ st)); try done.
  destruct (ObjectId L id) as [o|]; [|done].
  unfold find_one. by destruct (find_by_id o _).
Qed.

Lemma delete_known L id u t st :
  teachers_collection st !! u = Some t →
  delete_announcement L id u st =
  match ObjectId L id with
  | None => (HTTPException 400 "Invalid announcement ID", st)
  | Some o =>
      match find_by_id o (announcements_collection st) with
      | None => (HTTPException 404 "Announcement not found", st)
      | Some _ =>
          (Return (ack "Announcement deleted successfully"),
           set_announcements
             (snd (delete_first o (announcements_collection st))) st)
      end
  end.
Proof.
  intros Ht. unfold delete_announcement, bind.
  rewrite (validate_teacher_known u t) by done.
  destruct (ObjectId L id) as [o|]; [|done].
  unfold delete_one.
  destruct (find_by_id o (announcements_collection st)) as [d|] eqn:Hf.
  - pose proof (delete_first_zero o (announcements_collection st)) as Hz.
    destruct (delete_first o (announcements_collection st)) as [n c] eqn:Hd.
    simpl in *. destruct (Z.eqb_spec n 0) as [->|]; [|done].
    apply proj1 in Hz. specialize (Hz eq_refl).
    apply find_by_id_None in Hz. congruence.
  - apply find_by_id_None in Hf.
    rewrite delete_first_absent by done. simpl.
    by rewrite set_announcements_id.
Qed.

Lemma find_by_id_Some_iff o c :
  is_Some (find_by_id o c) ↔ ¬ absent o c.
Proof.
  rewrite <- find_by_id_None.
  destruct (find_by_id o c); split; intros H; try done; by eauto.
Qed.

(** ** When the authenticated endpoints succeed *)

(** Create succeeds exactly for a known teacher with valid dates, and a
    successful create makes the collection one record longer. *)
Theorem create_succeeds_iff (L : Library) (now : string) (new_id : oid)
  (body : AnnouncementCreate) (username : string) (st : State) :
  ((∃ r st', create_announcement L now new_id body username st
             = (Return r, st'))
   ↔ is_Some (teachers_collection st !! username)
     ∧ valid_dates L (start_date body) (expiration_date body))
  ∧ (∀ r st', create_announcement L now new_id body username st
              = (Return r, st') →
       length (announcements_collection st')
       = S (length (announcements_collection st))).
Proof.
  destruct (teachers_collection st !! username) as [t|] eqn:Ht.
  - rewrite (create_known L now new_id body username t) by done.
    rewrite <- (validate_dates_Return L _ _ st).
    destruct (fst (_validate_dates _ _ _ st)) as [[]|c d|e]; split.
    + split; [by eauto | by eauto].
    + intros r st' [= <- <-]. simpl. rewrite length_app. simpl. lia.
    + split; [by intros (? & ? & [=]) | by intros [_ [=]]].
    + by intros r st' [=].
    + split; [by intros (? & ? & [=]) | by intros [_ [=]]].
    + by intros r st' [=].
  - unfold create_announcement, bind.
    rewrite validate_teacher_unknown by done. split.
    + split; [by intros (? & ? & [=]) | by intros [[? [=]] _]].
    + by intros r st' [=].
Qed.

Lemma update_first_ids o data c :
  map _id (update_first o data c) = map _id c.
Proof.
  induction c as [|x c IH]; simpl; [done|].
  destruct (decide (_id x = o)); simpl; by rewrite ?IH.
Qed.

(** Update succeeds exactly for a known teacher with valid dates and a
    well-formed identifier that matches a stored record; a successful
    update keeps the keys of the collection and their order. *)
Theorem update_succeeds_iff (L : Library) (announcement_id : string)
  (body : AnnouncementCreate) (username : string) (st : State) :
  ((∃ r st', update_announcement L announcement_id body username st
             = (Return r, st'))
   ↔ is_Some (teachers_collection st !! username)
     ∧ valid_dates L (start_date body) (expiration_date body)
     ∧ ∃ obj_id, ObjectId L announcement_id = Some obj_id
                 ∧ ¬ absent obj_id (announcements_collection st))
  ∧ (∀ r st', update_announcement L announcement_id body username st
              = (Return r, st') →
       map _id (announcements_collection st')
       = map _id (announcements_collection st)).
Proof.
  destruct (teachers_collection st !! username) as [t|] eqn:Ht.
  - rewrite (update_known L announcement_id body username t) by done.
    rewrite <- (validate_dates_Return L _ _ st).
    destruct (fst (_validate_dates _ _ _ st)) as [[]|c d|e].
    + destruct (ObjectId L announcement_id) as [o|].
      * pose proof (find_by_id_Some_iff o (announcements_collection st))
          as Hfind.
        destruct (find_by_id o (announcements_collection st)) as [x|]; split.
        -- split; [intros _ | by eauto].
           split; [by eauto|]. split; [done|]. exists o.
           split; [done|]. apply Hfind. by eauto.
        -- intros r st' [= <- <-]. simpl. apply update_first_ids.
        -- split; [by intros (? & ? & [=])|].
           intros (_ & _ & o' & [= <-] & Ho).
           apply Hfind in Ho. by destruct Ho.
        -- by intros r st' [=].
      * split.
        -- split; [by intros (? & ? & [=])|].
           by intros (_ & _ & o' & [=] & _).
        -- by intros r st' [=].
    + split.
      * split; [by intros (? & ? & [=]) | by intros (_ & [=] & _)].
      * by intros r st' [=].
    + split.
      * split; [by intros (? & ? & [=]) | by intros (_ & [=] & _)].
      * by intros r st' [=].
  - unfold update_announcement, bind.
    rewrite validate_teacher_unknown by done. split.
    + split; [by intros (? & ? & [=]) | by intros [[? [=]] _]].
    + by intros r st' [=].
Qed.

Lemma delete_first_split o c d :
  find_by_id o c = Some d →
  ∃ pre post,
    c = pre ++ d :: post ∧ absent o pre ∧ _id d = o
    ∧ delete_first o c = (1, pre ++ post).
Proof.
  induction c as [|x c IH]; simpl; [done|].
  destruct (decide (_id x = o)) as [Hx|Hx].
  - intros [= ->]. exists [], c. repeat split; try done.
    intros y Hy. by apply elem_of_nil in Hy.
  - intros (pre & post & -> & Hpre & Hd & Hdel)%IH.
    exists (x :: pre), post. repeat split; try done.
    + intros y [->|Hy]%elem_of_cons; [done | by apply Hpre].
    + by rewrite Hdel.
Qed.

(** Delete succeeds exactly for a known teacher and a well-formed
    identifier that matches a stored record. It then returns the
    acknowledgment and removes one record, the first with that key;
    every other record stays, in place and unchanged, and the teacher
    collection is not written. *)
Theorem delete_removes_one_record (L : Library) (announcement_id : string)
  (username : string) (st : State) :
  ((∃ r st', delete_announcement L announcement_id username st
             = (Return r, st'))
   ↔ is_Some (teachers_collection st !! username)
     ∧ ∃ obj_id, ObjectId L announcement_id = Some obj_id
                 ∧ ¬ absent obj_id (announcements_collection st))
  ∧ (∀ r st', delete_announcement L announcement_id username st
              = (Return r, st') →
       r = ack "Announcement deleted successfully"
       ∧ teachers_collection st' = teachers_collection st
       ∧ ∃ obj_id pre d post,
           ObjectId L announcement_id = Some obj_id
           ∧ announcements_collection st = pre ++ d :: post
           ∧ absent obj_id pre ∧ _id d = obj_id
           ∧ announcements_collection st' = pre ++ post).
Proof.
  destruct (teachers_collection st !! username) as [t|] eqn:Ht.
  - rewrite (delete_known L announcement_id username t) by done.
    destruct (ObjectId L announcement_id) as [o|].
    + pose proof (find_by_id_Some_iff o (announcements_collection st))
        as Hfind.
      destruct (find_by_id o (announcements_collection st)) as [x|] eqn:Hx;
        split.
      * split; [intros _ | by eauto].
        split; [by eauto|]. exists o. split; [done|]. apply Hfind. by eauto.
      * intros r st' [= <- <-].
        destruct (delete_first_split _ _ _ Hx)
          as (pre & post & Hc & Hpre & Hd & Hdel).
        split; [done|]. split; [done|].
        exists o, pre, x, post. simpl. by rewrite Hdel.
      * split; [by intros (? & ? & [=])|].
        intros (_ & o' & [= <-] & Ho). apply Hfind in Ho. by destruct Ho.
      * by intros r st' [=].
    + split.
      * split; [by intros (? & ? & [=])|]. by intros (_ & o' & [=] & _).
      * by intros r st' [=].
  - unfold delete_announcement, bind.
    rewrite validate_teacher_unknown by done. split.
    + split; [by intros (? & ? & [=]) | by intros [[? [=]] _]].
    + by intros r st' [=].
Qed.

(** ** Which failures can occur *)

Lemma validate_dates_failures L sd ed st c d :
  fst (_validate_dates L sd ed st) = HTTPException c d →
  c = 400
  ∧ (d = "Invalid expiration date format"
     ∨ d = "Invalid start date format"
     ∨ d = "Start date must be before expiration date").
Proof.
  unfold _validate_dates, raise, ret, uncaught.
  repeat case_match; simpl; intros [= <- <-]; auto.
Qed.

(** Every HTTP error of the three authenticated endpoints is one of a
    fixed list: create answers 401 or one of the three date errors and
    never 404; update adds the identifier error and 404; delete has no
    date errors. *)
Theorem http_errors_are_listed (L : Library) (now : string) (new_id : oid)
  (announcement_id : string) (body : AnnouncementCreate)
  (username : string) (st : State) (c : Z) (d : string) :
  (fst (create_announcement L now new_id body username st)
     = HTTPException c d →
   (c, d) ∈ [(401, "Unauthorized");
             (400, "Invalid expiration date format");
             (400, "Invalid start date format");
             (400, "Start date must be before expiration date")])
  ∧ (fst (update_announcement L announcement_id body username st)
       = HTTPException c d →
     (c, d) ∈ [(401, "Unauthorized");
               (400, "Invalid expiration date format");
               (400, "Invalid start date format");
               (400, "Start date must be before expiration date");
               (400, "Invalid announcement ID");
               (404, "Announcement not found")])
  ∧ (fst (delete_announcement L announcement_id username st)
       = HTTPException c d →
     (c, d) ∈ [(401, "Unauthorized");
               (400, "Invalid announcement ID");
               (404, "Announcement not found")]).
Proof.
  pose proof (validate_dates_failures L (start_date body)
                (expiration_date body) st c d) as Hd.
  destruct (teachers_collection st !! username) as [t|] eqn:Ht.
  - rewrite (create_known L now new_id body username t) by done.
    rewrite (update_known L announcement_id body username t) by done.
    rewrite (delete_known L announcement_id username t) by done.
    split; [|split].
    + destruct (fst (_validate_dates _ _ _ st)) as [[]|c' d'|e]; simpl;
        try done.
      intros [= <- <-].
      destruct (Hd eq_refl) as [-> [-> | [-> | ->]]]; listed.
    + destruct (fst (_validate_dates _ _ _ st)) as [[]|c' d'|e]; simpl;
        try done.
      * repeat case_match; simpl; try done; intros [= <- <-]; listed.
      * intros [= <- <-].
        destruct (Hd eq_refl) as [-> [-> | [-> | ->]]]; listed.
    + repeat case_match; simpl; try done; intros [= <- <-]; listed.
  - unfold create_announcement, update_announcement, delete_announcement,
      bind.
    rewrite validate_teacher_unknown by done. simpl.
    repeat split; intros [= <- <-]; listed.
Qed.

(** For a known teacher the dates are checked before the identifier: a
    date error of [_validate_dates] is the answer of create, and of
    update whatever the identifier is, and nothing is written. *)
Theorem date_error_precedes_identifier (L : Library) (now : string)
  (new_id : oid) (announcement_id : string) (body : AnnouncementCreate)
  (username : string) (st : State) (c : Z) (d : string) :
  is_Some (teachers_collection st !! username) →
  fst (_validate_dates L (start_date body) (expiration_date body) st)
    = HTTPException c d →
  create_announcement L now new_id body username st
    = (HTTPException c d, st)
  ∧ update_announcement L announcement_id body username st
    = (HTTPException c d, st).
Proof.
  intros [t Ht] Hd.
  rewrite (create_known L now new_id body username t) by done.
  rewrite (update_known L announcement_id body username t) by done.
  by rewrite Hd.
Qed.

(** A timezone-aware timestamp against a naive one is not a Bad
    Request: for a known teacher whose non-empty start and expiration
    both parse, one with an offset and one without, create and update
    end in an uncaught [TypeError]; nothing is written. *)
Theorem mixed_awareness_is_uncaught (L : Library) (now : string)
  (new_id : oid) (announcement_id : string) (body : AnnouncementCreate)
  (username : string) (st : State) (s : string) (start exp : datetime) :
  is_Some (teachers_collection st !! username) →
  start_date body = Some s → s ≠ EmptyString →
  fromisoformat L s = Some start →
  fromisoformat L (expiration_date body) = Some exp →
  (utcoffset start = None ↔ is_Some (utcoffset exp)) →
  create_announcement L now new_id body username st
    = (Uncaught "TypeError", st)
  ∧ update_announcement L announcement_id body username st
    = (Uncaught "TypeError", st).
Proof.
  intros [t Ht] Hsd Hs Hstart Hexp Hmix.
  assert (fst (_validate_dates L (start_date body) (expiration_date body) st)
          = Uncaught "TypeError") as Hv.
  { unfold _validate_dates. rewrite Hexp, Hsd.
    destruct (String.eqb_spec s EmptyString); [done|]. rewrite Hstart.
    unfold dt_ge, _cmp.
    destruct (utcoffset start) as [a|], (utcoffset exp) as [b|]; try done.
    - destruct Hmix as [_ Hmix]. by specialize (Hmix (ltac:(eauto))).
    - destruct Hmix as [Hmix _]. by destruct (Hmix eq_refl). }
  rewrite (create_known L now new_id body username t) by done.
  rewrite (update_known L announcement_id body username t) by done.
  by rewrite Hv.
Qed.

(** ** What the endpoints leave alone *)

(** No endpoint writes to the teacher collection, whatever its outcome. *)
Theorem teachers_never_written (L : Library) (now : string) (new_id : oid)
  (announcement_id : string) (body : AnnouncementCreate)
  (username : string) (st : State) :
  teachers_collection (snd (list_announcements L st))
    = teachers_collection st
  ∧ teachers_collection (snd (list_active_announcements L now st))
    = teachers_collection st
  ∧ teachers_collection
      (snd (create_announcement L now new_id body username st))
    = teachers_collection st
  ∧ teachers_collection
      (snd (update_announcement L announcement_id body username st))
    = teachers_collection st
  ∧ teachers_collection
      (snd (delete_announcement L announcement_id username st))
    = teachers_collection st.
Proof.
  split; [done|]. split; [done|].
  destruct (teachers_collection st !! username) as [t|] eqn:Ht.
  - rewrite (create_known L now new_id body username t) by done.
    rewrite (update_known L announcement_id body username t) by done.
    rewrite (delete_known L announcement_id username t) by done.
    repeat split; repeat case_match; done.
  - unfold create_announcement, update_announcement, delete_announcement,
      bind.
    by rewrite validate_teacher_unknown.
Qed.

(** ** How the endpoints compose *)

Lemma set_announcements_twice c1 c2 st :
  set_announcements c2 (set_announcements c1 st) = set_announcements c2 st.
Proof. done. Qed.

Lemma apply_set_twice data d :
  apply_set data (apply_set data d) = apply_set data d.
Proof.
  unfold apply_set. simpl. f_equal.
  by rewrite (assoc_L (∪)), (idemp_L (∪)).
Qed.

Lemma update_first_twice o data c :
  update_first o data (update_first o data c) = update_first o data c.
Proof.
  induction c as [|x c IH]; simpl; [done|].
  destruct (decide (_id x = o)) as [Hx|Hx]; simpl.
  - rewrite decide_True by done. by rewrite apply_set_twice.
  - rewrite decide_False by done. by rewrite IH.
Qed.

Lemma find_by_id_update_first o data c :
  is_Some (find_by_id o (update_first o data c)) ↔ is_Some (find_by_id o c).
Proof.
  induction c as [|x c IH]; simpl; [done|].
  destruct (decide (_id x = o)) as [Hx|Hx]; simpl.
  - rewrite decide_True by done. split; by eauto.
  - by rewrite decide_False.
Qed.

(** Update is idempotent: repeating a request on the state it left gives
    the same outcome and changes nothing further. *)
Theorem update_twice_is_update_once (L : Library) (announcement_id : string)
  (body : AnnouncementCreate) (username : string) (st : State) :
  update_announcement L announcement_id body username
    (snd (update_announcement L announcement_id body username st))
  = update_announcement L announcement_id body username st.
Proof.
  destruct (teachers_collection st !! username) as [t|] eqn:Ht.
  2: { unfold update_announcement, bind.
       rewrite (validate_teacher_unknown username st) by done. simpl.
       by rewrite validate_teacher_unknown. }
  rewrite (update_known L announcement_id body username t st) by done.
  destruct (fst (_validate_dates _ _ _ st)) as [[]|c d|e] eqn:Hv; simpl.
  - destruct (ObjectId L announcement_id) as [o|] eqn:Hid; simpl.
    + destruct (find_by_id o (announcements_collection st)) as [x|] eqn:Hx;
        simpl.
      * rewrite (update_known L announcement_id body username t) by done.
        rewrite (validate_dates_any_state L _ _ _ st), Hv, Hid. simpl.
        destruct (proj2 (find_by_id_update_first o (update_data body)
                           (announcements_collection st))) as [y ->];
          [by eauto|].
        by rewrite update_first_twice.
      * rewrite (update_known L announcement_id body username t) by done.
        by rewrite Hv, Hid, Hx.
    + rewrite (update_known L announcement_id body username t) by done.
      by rewrite Hv, Hid.
  - rewrite (update_known L announcement_id body username t) by done.
    by rewrite Hv.
  - rewrite (update_known L announcement_id body username t) by done.
    by rewrite Hv.
Qed.

Lemma delete_first_last o c doc :
  absent o c → delete_first o (c ++ [mkDocument o doc]) = (1, c).
Proof.
  unfold absent. induction c as [|x c IH]; simpl; intros H.
  - by rewrite decide_True.
  - rewrite decide_False by (apply H; left).
    rewrite IH; [done|]. intros d Hd. apply H. by right.
Qed.

Lemma find_by_id_last o c doc :
  absent o c →
  find_by_id o (c ++ [mkDocument o doc]) = Some (mkDocument o doc).
Proof. intros H. by apply find_by_id_middle. Qed.

(** Create, then delete under the returned "id", restores the state:
    provided the assigned key was not in the collection and the library
    reads the string form of a key back as that key. *)
Theorem create_then_delete_restores (L : Library) (now : string)
  (new_id : oid) (body : AnnouncementCreate) (username : string)
  (st st' : State) (r : gmap string Value) (id : string) :
  absent new_id (announcements_collection st) →
  ObjectId L (str L new_id) = Some new_id →
  create_announcement L now new_id body username st = (Return r, st') →
  r !! "id" = Some (VStr id) →
  delete_announcement L id username st'
  = (Return (ack "Announcement deleted successfully"), st).
Proof.
  intros Habs Hrt Hc Hid.
  destruct (teachers_collection st !! username) as [t|] eqn:Ht.
  2: { revert Hc. unfold create_announcement, bind.
       by rewrite validate_teacher_unknown. }
  rewrite (create_known L now new_id body username t) in Hc by done.
  destruct (fst (_validate_dates _ _ _ st)) as [[]|c d|e]; try done.
  injection Hc as <- <-.
  rewrite lookup_insert_eq in Hid. injection Hid as <-.
  rewrite (delete_known L _ username t) by done.
  rewrite Hrt. simpl.
  rewrite find_by_id_last, delete_first_last by done. simpl.
  by rewrite set_announcements_twice, set_announcements_id.
Qed.

(** The record that create returns is the one the full listing shows
    from then on. *)
Theorem created_record_is_listed (L : Library) (now : string)
  (new_id : oid) (body : AnnouncementCreate) (username : string)
  (st st' : State) (r : gmap string Value) :
  create_announcement L now new_id body username st = (Return r, st') →
  ∃ rs, list_announcements L st' = (Return rs, st') ∧ r ∈ rs.
Proof.
  intros Hc.
  destruct (teachers_collection st !! username) as [t|] eqn:Ht.
  2: { revert Hc. unfold create_announcement, bind.
       by rewrite validate_teacher_unknown. }
  rewrite (create_known L now new_id body username t) in Hc by done.
  destruct (fst (_validate_dates _ _ _ st)) as [[]|c d|e]; try done.
  injection Hc as <- <-.
  eexists. split; [reflexivity|].
  apply (list_elem_of_fmap_2'
           (_serialize_announcement L) _
           (mkDocument new_id (new_doc body username now))); [|done].
  rewrite sort_desc_Permutation. simpl. apply elem_of_app. right. by left.
Qed.

Lemma delete_first_sublist o c : snd (delete_first o c) `sublist_of` c.
Proof.
  induction c as [|x c IH]; simpl; [done|].
  destruct (decide (_id x = o)) as [Hx|Hx].
  - by apply sublist_cons.
  - destruct (delete_first o c) as [k r]. simpl in *. by apply sublist_skip.
Qed.

(** Distinct keys stay distinct: if no two stored records share a key,
    the same holds after update and after delete, whatever their
    outcome, and after create provided the assigned key is not in the
    collection. *)
Theorem keys_stay_distinct (L : Library) (now : string) (new_id : oid)
  (announcement_id : string) (body : AnnouncementCreate)
  (username : string) (st : State) :
  NoDup (map _id (announcements_collection st)) →
  (absent new_id (announcements_collection st) →
   NoDup (map _id (announcements_collection
                     (snd (create_announcement L now new_id body
                             username st)))))
  ∧ NoDup (map _id (announcements_collection
                      (snd (update_announcement L announcement_id body
                              username st))))
  ∧ NoDup (map _id (announcements_collection
                      (snd (delete_announcement L announcement_id
                              username st)))).
Proof.
  intros Hnd.
  destruct (teachers_collection st !! username) as [t|] eqn:Ht.
  2: { unfold create_announcement, update_announcement,
         delete_announcement, bind.
       by rewrite validate_teacher_unknown. }
  rewrite (create_known L now new_id body username t) by done.
  rewrite (update_known L announcement_id body username t) by done.
  rewrite (delete_known L announcement_id username t) by done.
  split; [|split].
  - intros Habs.
    destruct (fst (_validate_dates _ _ _ st)) as [[]|c d|e]; try done.
    simpl. rewrite map_app. apply NoDup_app. split; [done|].
    split; [|apply NoDup_singleton].
    intros o Ho [->|[]%elem_of_nil]%elem_of_cons. simpl in Ho.
    apply (list_elem_of_fmap_1 _id) in Ho as (x & Hx & Hin).
    by apply (Habs x).
  - repeat case_match; simpl; try done. by rewrite update_first_ids.
  - repeat case_match; simpl; try done.
    apply (sublist_NoDup _ (map _id (announcements_collection st)));
      [exact Hnd|].
    apply (fmap_sublist _id), delete_first_sublist.
Qed.

Lemma delete_first_absent_after o c :
  NoDup (map _id c) → absent o (snd (delete_first o c)).
Proof.
  induction c as [|x c IH]; simpl.
  - intros _ d Hd. by apply elem_of_nil in Hd.
  - intros [Hx Hnd]%NoDup_cons.
    destruct (decide (_id x = o)) as [<-|Hne]; simpl.
    + intros d Hd Heq. apply Hx. rewrite <- Heq.
      by apply (list_elem_of_fmap_2 _id).
    + specialize (IH Hnd). destruct (delete_first o c) as [n r].
      simpl in *. intros d [->|Hd]%elem_of_cons; [done | by apply IH].
Qed.

(** With distinct keys, a deleted record is gone: repeating a successful
    delete on the state it left answers 404. *)
Theorem delete_twice_is_404 (L : Library) (announcement_id : string)
  (username : string) (st st' : State) (r : gmap string Value) :
  NoDup (map _id (announcements_collection st)) →
  delete_announcement L announcement_id username st = (Return r, st') →
  delete_announcement L announcement_id username st'
  = (HTTPException 404 "Announcement not found", st').
Proof.
  intros Hnd Hdel.
  destruct (teachers_collection st !! username) as [t|] eqn:Ht.
  2: { revert Hdel. unfold delete_announcement, bind.
       by rewrite validate_teacher_unknown. }
  rewrite (delete_known L announcement_id username t) in Hdel by done.
  destruct (ObjectId L announcement_id) as [o|] eqn:Hid; [|done].
  destruct (find_by_id o (announcements_collection st)); [|done].
  injection Hdel as <- <-.
  rewrite (delete_known L announcement_id username t) by done.
  rewrite Hid. simpl.
  by rewrite (proj2 (find_by_id_None o _) (delete_first_absent_after o _ Hnd)).
Qed.

(** ** Evaluations of the further properties on the sample store *)

Lemma validate_dates_reports_expiration_first_witness :
  fromisoformat lib (expiration_date body_bad_dates) = None
  ∧ _validate_dates lib (start_date body_bad_dates)
      (expiration_date body_bad_dates) st0
    = (HTTPException 400 "Invalid expiration date format", st0)
  ∧ _validate_dates lib (Some "soon") equal_ts st0
    = (HTTPException 400 "Invalid start date format", st0).
Proof.
  split; [reflexivity|]. split.
  - apply (validate_dates_reports_expiration_first lib
             (start_date body_bad_dates) (expiration_date body_bad_dates)
             st0). reflexivity.
  - apply (proj1 (proj2 (validate_dates_reports_expiration_first lib
                           (Some "soon") equal_ts st0)) "soon");
      [vm_compute; eauto | reflexivity | discriminate | reflexivity].
Defined.

Lemma create_succeeds_iff_witness :
  create_announcement lib now0 id9 body_ok "t1" st0
  = (Return (<["id" := VStr free_key]> (new_doc body_ok "t1" now0)),
     snd (create_announcement lib now0 id9 body_ok "t1" st0))
  ∧ length (announcements_collection
              (snd (create_announcement lib now0 id9 body_ok "t1" st0)))
    = 4%nat.
Proof.
  assert (create_announcement lib now0 id9 body_ok "t1" st0
          = (Return (<["id" := VStr free_key]> (new_doc body_ok "t1" now0)),
             snd (create_announcement lib now0 id9 body_ok "t1" st0)))
    as H by reflexivity.
  split; [exact H|].
  exact (proj2 (create_succeeds_iff lib now0 id9 body_ok "t1" st0) _ _ H).
Defined.

Lemma update_succeeds_iff_witness :
  update_announcement lib fair_key body_ok "t1" st0
  = (Return (ack "Announcement updated successfully"),
     snd (update_announcement lib fair_key body_ok "t1" st0))
  ∧ map _id (announcements_collection
               (snd (update_announcement lib fair_key body_ok "t1" st0)))
    = [id1; id2; id3].
Proof.
  assert (update_announcement lib fair_key body_ok "t1" st0
          = (Return (ack "Announcement updated successfully"),
             snd (update_announcement lib fair_key body_ok "t1" st0)))
    as H by reflexivity.
  split; [exact H|].
  exact (proj2 (update_succeeds_iff lib fair_key body_ok "t1" st0) _ _ H).
Defined.

Lemma delete_removes_one_record_witness :
  delete_announcement lib fair_key "t1" st0
  = (Return (ack "Announcement deleted successfully"),
     set_announcements [exam; old] st0)
  ∧ teachers_collection (set_announcements [exam; old] st0)
    = teachers_collection st0.
Proof.
  assert (delete_announcement lib fair_key "t1" st0
          = (Return (ack "Announcement deleted successfully"),
             set_announcements [exam; old] st0)) as H by reflexivity.
  split; [exact H|].
  exact (proj1 (proj2 (proj2 (delete_removes_one_record lib fair_key "t1"
                                st0) _ _ H))).
Defined.

Lemma http_errors_are_listed_witness :
  fst (delete_announcement lib free_key "t1" st0)
    = HTTPException 404 "Announcement not found"
  ∧ (404, "Announcement not found")
    ∈ [(401, "Unauthorized"); (400, "Invalid announcement ID");
       (404, "Announcement not found")].
Proof.
  split; [reflexivity|].
  apply (http_errors_are_listed lib now0 id9 free_key body_ok "t1" st0
           404 "Announcement not found"). reflexivity.
Defined.

Lemma date_error_precedes_identifier_witness :
  is_Some (teachers_collection st0 !! "t1")
  ∧ fst (_validate_dates lib (start_date body_bad_dates)
           (expiration_date body_bad_dates) st0)
    = HTTPException 400 "Invalid expiration date format"
  ∧ update_announcement lib "not-a-valid-id" body_bad_dates "t1" st0
    = (HTTPException 400 "Invalid expiration date format", st0).
Proof.
  assert (is_Some (teachers_collection st0 !! "t1")) as Ht
    by (vm_compute; eauto).
  split; [exact Ht|]. split; [reflexivity|].
  apply (date_error_precedes_identifier lib now0 id9 "not-a-valid-id"
           body_bad_dates "t1" st0 400 "Invalid expiration date format" Ht).
  reflexivity.
Defined.

Lemma mixed_awareness_is_uncaught_witness :
  is_Some (teachers_collection st0 !! "t1")
  ∧ fromisoformat lib "2999-02-01T00:00:00+00:00"
    = Some (mkDatetime 2999 2 1 0 0 0 0 (Some 0))
  ∧ fromisoformat lib equal_ts = Some (mkDatetime 2999 1 1 0 0 0 0 None)
  ∧ create_announcement lib now0 id9
      (mkAnnouncementCreate "Mixed" (Some "2999-02-01T00:00:00+00:00")
         equal_ts) "t1" st0
    = (Uncaught "TypeError", st0).
Proof.
  assert (is_Some (teachers_collection st0 !! "t1")) as Ht
    by (vm_compute; eauto).
  split; [exact Ht|]. split; [reflexivity|]. split; [reflexivity|].
  apply (mixed_awareness_is_uncaught lib now0 id9 fair_key
           (mkAnnouncementCreate "Mixed" (Some "2999-02-01T00:00:00+00:00")
              equal_ts) "t1" st0 "2999-02-01T00:00:00+00:00"
           (mkDatetime 2999 2 1 0 0 0 0 (Some 0))
           (mkDatetime 2999 1 1 0 0 0 0 None) Ht eq_refl);
    [discriminate | reflexivity | reflexivity |].
  simpl. split; [discriminate | by intros [? [=]]].
Defined.

Lemma create_then_delete_restores_witness :
  absent id9 (announcements_collection st0)
  ∧ ObjectId lib (str lib id9) = Some id9
  ∧ delete_announcement lib free_key "t1"
      (snd (create_announcement lib now0 id9 body_ok "t1" st0))
    = (Return (ack "Announcement deleted successfully"), st0).
Proof.
  assert (absent id9 (announcements_collection st0)) as Ha.
  { apply find_by_id_None. reflexivity. }
  split; [exact Ha|]. split; [reflexivity|].
  apply (create_then_delete_restores lib now0 id9 body_ok "t1" st0
           (snd (create_announcement lib now0 id9 body_ok "t1" st0))
           (<["id" := VStr free_key]> (new_doc body_ok "t1" now0))
           free_key Ha); reflexivity.
Defined.

Lemma created_record_is_listed_witness :
  ∃ rs,
    list_announcements lib
      (snd (create_announcement lib now0 id9 body_ok "t1" st0))
    = (Return rs, snd (create_announcement lib now0 id9 body_ok "t1" st0))
    ∧ <["id" := VStr free_key]> (new_doc body_ok "t1" now0) ∈ rs.
Proof.
  apply (created_record_is_listed lib now0 id9 body_ok "t1" st0).
  reflexivity.
Defined.

Lemma sample_keys_distinct : NoDup (map _id (announcements_collection st0)).
Proof.
  simpl. repeat (apply NoDup_cons_2); try apply NoDup_nil_2;
    rewrite ?not_elem_of_cons; repeat split; try discriminate;
    apply not_elem_of_nil.
Defined.

Lemma keys_stay_distinct_witness :
  NoDup (map _id (announcements_collection st0))
  ∧ NoDup (map _id (announcements_collection
                      (snd (delete_announcement lib fair_key "t1" st0)))).
Proof.
  split; [exact sample_keys_distinct|].
  exact (proj2 (proj2 (keys_stay_distinct lib now0 id9 fair_key body_ok
                         "t1" st0 sample_keys_distinct))).
Defined.

Lemma delete_twice_is_404_witness :
  delete_announcement lib fair_key "t1" st0
  = (Return (ack "Announcement deleted successfully"),
     set_announcements [exam; old] st0)
  ∧ delete_announcement lib fair_key "t1" (set_announcements [exam; old] st0)
    = (HTTPException 404 "Announcement not found",
       set_announcements [exam; old] st0).
Proof.
  assert (delete_announcement lib fair_key "t1" st0
          = (Return (ack "Announcement deleted successfully"),
             set_announcements [exam; old] st0)) as H by reflexivity.
  split; [exact H|].
  exact (delete_twice_is_404 lib fair_key "t1" st0 _ _
           sample_keys_distinct H).
Defined.
